(** * summer-internship-scraper: job offers, fingerprints, repository, listing

    A shallow embedding of the Python sources

    - [summer_internships_scraper/models/offers.py]:
      the [JobOffer] dataclass, [JobOffer.to] and [JobOffer.get_hash];
    - [summer_internships_scraper/utils/markdown_export.py]:
      [export_to_markdown];

    of the pieces of the Python run time they call (text as code points,
    [str.encode("utf-8")], [hashlib.md5], f-string formatting, [sorted],
    writing a text file), and of the job repository that
    [summer_internships_scraper/scraper.py] drives through [add_jobs] and
    [get_all_jobs], whose module is described by the specification only.

    Code that raises is embedded in an error monad, [Py.result]; code that
    writes a file passes the files along. *)

From Stdlib Require Import ZArith List String Ascii Bool Lia Permutation.
From Stdlib Require Import DecimalString Sorted.
Import ListNotations.

Local Open Scope Z_scope.

(* ===================================================================== *)
(** * Part I: the embedding *)
(* ===================================================================== *)

(** ** Python values *)

Module Py.

(** A Python [str] is a sequence of code points, [0 .. 0x10FFFF]; lone
    surrogates ([0xD800 .. 0xDFFF]) are code points a [str] may hold. *)
Definition str := list Z.

(** [bytes]: a sequence of octets, each in [0 .. 255]. *)
Definition bytes := list Z.

Definition is_codepoint (c : Z) : bool := (0 <=? c) && (c <? 0x110000).

Definition is_surrogate (c : Z) : bool := (0xD800 <=? c) && (c <=? 0xDFFF).

(** The code points UTF-8 can carry: every code point but the surrogates. *)
Definition is_scalar (c : Z) : bool := is_codepoint c && negb (is_surrogate c).


Definition encodable (s : str) : Prop := Forall (fun c => is_scalar c = true) s.

(** An ASCII literal of the source as a [str]. *)
Definition lit (s : string) : str :=
  map (fun a => Z.of_N (N_of_ascii a)) (list_ascii_of_string s).

(** [a == b] on [str]. *)
Fixpoint str_eqb (a b : str) : bool :=
  match a, b with
  | [], [] => true
  | x :: a', y :: b' => if x =? y then str_eqb a' b' else false
  | _, _ => false
  end.

(** [str(n)] for a natural number: its decimal numeral. *)
Definition str_of_nat (n : nat) : str :=
  lit (NilEmpty.string_of_uint (Nat.to_uint n)).

(** The exceptions the modelled code can raise. [OSError] stands for its
    subclasses too ([FileNotFoundError], [IsADirectoryError],
    [PermissionError], a full disk). *)
Inductive exn : Type :=
| TypeError
| KeyError
| UnicodeEncodeError
| OSError
| ValueError.

Inductive result (A : Type) : Type :=
| Ok (a : A)
| Raise (e : exn).

Arguments Ok {A} a.
Arguments Raise {A} e.

Definition bind {A B : Type} (m : result A) (k : A -> result B) : result B :=
  match m with
  | Ok a => k a
  | Raise e => Raise e
  end.

Definition returned {A : Type} (m : result A) : bool :=
  match m with
  | Ok _ => true
  | Raise _ => false
  end.

(** The values a field of a job offer holds: [_parse_job_card] of
    [scraper.py] builds an offer from stripped text (title, company name,
    location), attribute values or [None] (link, posted date), and [None]
    (description). *)
Inductive value : Type :=
| VNone
| VStr (s : str).

(** [a == b] on the values. *)
Definition value_eqb (a b : value) : bool :=
  match a, b with
  | VNone, VNone => true
  | VStr s, VStr t => str_eqb s t
  | _, _ => false
  end.

(** [format(v, "")], what an f-string field [{v}] expands to. *)
Definition format (v : value) : str :=
  match v with
  | VNone => lit "None"
  | VStr s => s
  end.

(** One code point under [str.encode("utf-8")] (strict error handler). *)
Definition encode_codepoint (c : Z) : result bytes :=
  if negb (is_scalar c) then Raise UnicodeEncodeError
  else if c <? 0x80 then Ok [c]
  else if c <? 0x800 then
    Ok [Z.lor 0xC0 (Z.shiftr c 6); Z.lor 0x80 (Z.land c 0x3F)]
  else if c <? 0x10000 then
    Ok [Z.lor 0xE0 (Z.shiftr c 12);
        Z.lor 0x80 (Z.land (Z.shiftr c 6) 0x3F);
        Z.lor 0x80 (Z.land c 0x3F)]
  else
    Ok [Z.lor 0xF0 (Z.shiftr c 18);
        Z.lor 0x80 (Z.land (Z.shiftr c 12) 0x3F);
        Z.lor 0x80 (Z.land (Z.shiftr c 6) 0x3F);
        Z.lor 0x80 (Z.land c 0x3F)].

(** [s.encode("utf-8")]. *)
Fixpoint encode_utf8 (s : str) : result bytes :=
  match s with
  | [] => Ok []
  | c :: s' =>
      bind (encode_codepoint c) (fun b =>
      bind (encode_utf8 s') (fun bs => Ok (b ++ bs)))
  end.

End Py.

Notation "x <- m ;; k" := (Py.bind m (fun x => k))
  (at level 61, m at next level, right associativity).

(** ** [hashlib.md5]: the MD5 message digest of RFC 1321 *)

Module MD5.

(** 32-bit words are integers in [0 .. 2^32 - 1]; sums wrap around. *)
Definition wrap32 (x : Z) : Z := Z.land x 0xFFFFFFFF.

Definition add32 (a b : Z) : Z := wrap32 (a + b).

Definition not32 (x : Z) : Z := Z.lxor x 0xFFFFFFFF.

Definition rotl32 (x c : Z) : Z :=
  Z.lor (wrap32 (Z.shiftl x c)) (Z.shiftr x (32 - c)).

(** Per-round shift amounts. *)
Definition S_table : list Z :=
  [7; 12; 17; 22; 7; 12; 17; 22; 7; 12; 17; 22; 7; 12; 17; 22;
   5;  9; 14; 20; 5;  9; 14; 20; 5;  9; 14; 20; 5;  9; 14; 20;
   4; 11; 16; 23; 4; 11; 16; 23; 4; 11; 16; 23; 4; 11; 16; 23;
   6; 10; 15; 21; 6; 10; 15; 21; 6; 10; 15; 21; 6; 10; 15; 21].

(** [K_table[i] = floor (2^32 * abs (sin (i + 1)))]. *)
Definition K_table : list Z :=
  [0xd76aa478; 0xe8c7b756; 0x242070db; 0xc1bdceee;
   0xf57c0faf; 0x4787c62a; 0xa8304613; 0xfd469501;
   0x698098d8; 0x8b44f7af; 0xffff5bb1; 0x895cd7be;
   0x6b901122; 0xfd987193; 0xa679438e; 0x49b40821;
   0xf61e2562; 0xc040b340; 0x265e5a51; 0xe9b6c7aa;
   0xd62f105d; 0x02441453; 0xd8a1e681; 0xe7d3fbc8;
   0x21e1cde6; 0xc33707d6; 0xf4d50d87; 0x455a14ed;
   0xa9e3e905; 0xfcefa3f8; 0x676f02d9; 0x8d2a4c8a;
   0xfffa3942; 0x8771f681; 0x6d9d6122; 0xfde5380c;
   0xa4beea44; 0x4bdecfa9; 0xf6bb4b60; 0xbebfbc70;
   0x289b7ec6; 0xeaa127fa; 0xd4ef3085; 0x04881d05;
   0xd9d4d039; 0xe6db99e5; 0x1fa27cf8; 0xc4ac5665;
   0xf4292244; 0x432aff97; 0xab9423a7; 0xfc93a039;
   0x655b59c3; 0x8f0ccc92; 0xffeff47d; 0x85845dd1;
   0x6fa87e4f; 0xfe2ce6e0; 0xa3014314; 0x4e0811a1;
   0xf7537e82; 0xbd3af235; 0x2ad7d2bb; 0xeb86d391].

(** The chaining state, four 32-bit words. *)
Record state : Type := mkState { sA : Z; sB : Z; sC : Z; sD : Z }.

Definition init : state :=
  {| sA := 0x67452301; sB := 0xefcdab89; sC := 0x98badcfe; sD := 0x10325476 |}.

(** Little-endian words and octets. *)
Fixpoint le_split (n : nat) (w : Z) : list Z :=
  match n with
  | O => []
  | S n' => w mod 256 :: le_split n' (w / 256)
  end.

Fixpoint le_combine (l : list Z) : Z :=
  match l with
  | [] => 0
  | b :: l' => b + 256 * le_combine l'
  end.

Fixpoint words (n : nat) (block : list Z) : list Z :=
  match n with
  | O => []
  | S n' => le_combine (firstn 4 block) :: words n' (skipn 4 block)
  end.

(** The round function and the message word it reads, by round number. *)
Definition round_f (i : Z) (b c d : Z) : Z :=
  if i <? 16 then Z.lor (Z.land b c) (Z.land (not32 b) d)
  else if i <? 32 then Z.lor (Z.land d b) (Z.land (not32 d) c)
  else if i <? 48 then Z.lxor b (Z.lxor c d)
  else Z.lxor c (Z.lor b (not32 d)).

Definition round_g (i : Z) : Z :=
  if i <? 16 then i
  else if i <? 32 then (5 * i + 1) mod 16
  else if i <? 48 then (3 * i + 5) mod 16
  else (7 * i) mod 16.

Definition step (m : list Z) (st : state) (n : nat) : state :=
  let i := Z.of_nat n in
  let f := round_f i (sB st) (sC st) (sD st) in
  let f' := add32 (add32 (add32 f (sA st)) (nth n K_table 0))
                  (nth (Z.to_nat (round_g i)) m 0) in
  {| sA := sD st;
     sD := sC st;
     sC := sB st;
     sB := add32 (sB st) (rotl32 f' (nth n S_table 0)) |}.

Definition compress (st : state) (block : list Z) : state :=
  let m := words 16 block in
  let st' := fold_left (step m) (seq 0 64) st in
  {| sA := add32 (sA st) (sA st');
     sB := add32 (sB st) (sB st');
     sC := add32 (sC st) (sC st');
     sD := add32 (sD st) (sD st') |}.

(** Padding: a [0x80] octet, zeros up to 56 modulo 64, the bit length on
    eight octets. *)
Definition pad (msg : list Z) : list Z :=
  let len := Z.of_nat (List.length msg) in
  msg ++ 0x80 :: repeat 0 (Z.to_nat ((55 - len) mod 64))
      ++ le_split 8 ((8 * len) mod 2 ^ 64).

Fixpoint blocks (fuel : nat) (l : list Z) : list (list Z) :=
  match fuel with
  | O => []
  | S fuel' =>
      match l with
      | [] => []
      | _ => firstn 64 l :: blocks fuel' (skipn 64 l)
      end
  end.

(** [hashlib.md5(msg).digest()]: sixteen octets. *)
Definition digest (msg : list Z) : list Z :=
  let p := pad msg in
  let st := fold_left compress (blocks (List.length p) p) init in
  le_split 4 (sA st) ++ le_split 4 (sB st)
    ++ le_split 4 (sC st) ++ le_split 4 (sD st).

Definition hex_digits : Py.str := Py.lit "0123456789abcdef".

Definition hex_digit (n : Z) : Z := nth (Z.to_nat n) hex_digits 0.

Definition hex_byte (b : Z) : Py.str := [hex_digit (b / 16); hex_digit (b mod 16)].

(** [hashlib.md5(msg).hexdigest()]. *)
Definition hexdigest (msg : list Z) : Py.str := flat_map hex_byte (digest msg).

End MD5.

(** ** [models/offers.py] *)

Module Offers.

(** The [JobOffer] dataclass, its six fields in declaration order. *)
Record JobOffer : Type := mkJobOffer {
  title : Py.value;
  company_name : Py.value;
  location : Py.value;
  posted_date : Py.value;
  description : Py.value;
  url : Py.value
}.

(** A [dict] with [str] keys, its items in insertion order. *)
Definition dict := list (Py.str * Py.value).

(** [d[k]]. *)
Fixpoint getitem (d : dict) (k : Py.str) : Py.result Py.value :=
  match d with
  | [] => Py.Raise Py.KeyError
  | (k', v) :: d' => if Py.str_eqb k' k then Py.Ok v else getitem d' k
  end.

Definition keys (d : dict) : list Py.str := map fst d.

(** [self.__dict__.items()]: the instance attributes, in the order
    [__init__] assigns them. *)
Definition items (self : JobOffer) : list (Py.str * Py.value) :=
  [ (Py.lit "title", title self);
    (Py.lit "company_name", company_name self);
    (Py.lit "location", location self);
    (Py.lit "posted_date", posted_date self);
    (Py.lit "description", description self);
    (Py.lit "url", url self) ].

(** [{k: v for k, v in items}]: a later item replaces the value of an
    equal key and keeps the key's place. *)
Fixpoint setitem (d : dict) (k : Py.str) (v : Py.value) : dict :=
  match d with
  | [] => [(k, v)]
  | (k', v') :: d' =>
      if Py.str_eqb k' k then (k', v) :: d' else (k', v') :: setitem d' k v
  end.

Definition dict_of_items (l : list (Py.str * Py.value)) : dict :=
  fold_left (fun d kv => setitem d (fst kv) (snd kv)) l [].

(** [JobOffer.to]. *)
Definition to (self : JobOffer) : dict := dict_of_items (items self).

(** The local [content] of [get_hash]: the three fields formatted by the
    f-string, company name first, then encoded. *)
Definition content (self : JobOffer) : Py.result Py.bytes :=
  Py.encode_utf8
    (Py.format (company_name self) ++ Py.format (title self)
       ++ Py.format (location self)).

(** [JobOffer.get_hash]. *)
Definition get_hash (self : JobOffer) : Py.result Py.str :=
  c <- content self ;;
  Py.Ok (MD5.hexdigest c).

End Offers.

(** ** The job repository *)

Module Repository.

Section Repository.

(** The key type of the mapping, with its equality test, and the
    fingerprint of a record. *)
Variable Fingerprint : Type.
Variable fp_eq_dec : forall a b : Fingerprint, {a = b} + {a <> b}.
Variable fingerprint : Offers.JobOffer -> Fingerprint.

(** Modelled from the spec: the repository module
    ([summer_internships_scraper/repository/jobs.py], class
    [JobRepository]) is missing from the sources. Its state is "a mapping
    from Fingerprint to JobRecord, unique keys", whose insertion order is
    preserved: the items of the mapping, oldest first. *)
Definition state : Type := list (Fingerprint * Offers.JobOffer).

(** Modelled from the spec: the missing [JobRepository()] constructor;
    "the mapping is created empty at process start". *)
Definition empty : state := [].

(** Modelled from the spec: the keys of the missing mapping. *)
Definition keys (st : state) : list Fingerprint := map fst st.

(** Modelled from the spec: the missing membership test of the mapping,
    "already a key in the mapping". *)
Definition has_key (st : state) (fp : Fingerprint) : bool :=
  existsb (fun kv => if fp_eq_dec (fst kv) fp then true else false) st.

(** Modelled from the spec: the missing lookup of the mapping. *)
Fixpoint lookup (st : state) (fp : Fingerprint) : option Offers.JobOffer :=
  match st with
  | [] => None
  | (k, r) :: st' => if fp_eq_dec k fp then Some r else lookup st' fp
  end.

(** Modelled from the spec: the body of the loop of the missing
    [add_jobs]; "compute its fingerprint; if the fingerprint is not
    already a key in the mapping, insert it (record kept as-is, no
    mutation) and increment a per-call new-count; if already present,
    skip it silently". The accumulator is the mapping and the new-count. *)
Definition add_job (acc : state * nat) (record : Offers.JobOffer)
  : state * nat :=
  let fp := fingerprint record in
  if has_key (fst acc) fp then acc
  else (fst acc ++ [(fp, record)], S (snd acc)).

(** Modelled from the spec: the missing [JobRepository.add_jobs];
    "for each record in the input sequence, in order"; it "returns the
    count of records newly inserted by this call, and the total number
    of distinct records held by the repository after this call
    completes". The result is paired with the repository after the call. *)
Definition add_jobs (records : list Offers.JobOffer) (st : state)
  : (nat * nat) * state :=
  let acc := fold_left add_job records (st, O) in
  ((snd acc, List.length (fst acc)), fst acc).

(** Modelled from the spec: the missing [JobRepository.get_all_jobs];
    "returns every record currently held, in an order chosen by the
    repository", here the insertion order. *)
Definition get_all_jobs (st : state) : list Offers.JobOffer := map snd st.

(** The states the repository goes through: the empty one, and the one
    after each [add_jobs] call. *)
Inductive reachable : state -> Prop :=
| reachable_empty : reachable empty
| reachable_add_jobs (records : list Offers.JobOffer) (st : state) :
    reachable st -> reachable (snd (add_jobs records st)).

End Repository.

Arguments state Fingerprint : clear implicits.
Arguments empty {Fingerprint}.
Arguments keys {Fingerprint} st.
Arguments has_key {Fingerprint} fp_eq_dec st fp.
Arguments lookup {Fingerprint} fp_eq_dec st fp.
Arguments add_job {Fingerprint} fp_eq_dec fingerprint acc record.
Arguments add_jobs {Fingerprint} fp_eq_dec fingerprint records st.
Arguments get_all_jobs {Fingerprint} st.
Arguments reachable {Fingerprint} fp_eq_dec fingerprint st.

End Repository.

(** ** [utils/markdown_export.py] *)

Module MarkdownExport.

Import Offers.

(** [a < b] on [str]: lexicographic on code points. *)
Fixpoint str_ltb (a b : Py.str) : bool :=
  match a, b with
  | _, [] => false
  | [], _ :: _ => true
  | x :: a', y :: b' => (x <? y) || ((x =? y) && str_ltb a' b')
  end.

(** [a < b] on values: [None] supports no ordering. *)
Definition lt (a b : Py.value) : Py.result bool :=
  match a, b with
  | Py.VStr s, Py.VStr t => Py.Ok (str_ltb s t)
  | _, _ => Py.Raise Py.TypeError
  end.

Section Sorted.

Variable A : Type.

(** Keyed items, as [sorted] holds them once the keys are computed. *)
Definition keyed : Type := (Py.value * A)%type.

Fixpoint compute_keys (key : A -> Py.result Py.value) (l : list A)
  : Py.result (list keyed) :=
  match l with
  | [] => Py.Ok []
  | x :: l' =>
      k <- key x ;;
      ks <- compute_keys key l' ;;
      Py.Ok ((k, x) :: ks)
  end.

(** [x] stood before every item of the sorted [l]: it stays before the
    items that are not smaller. *)
Fixpoint insert (x : keyed) (l : list keyed) : Py.result (list keyed) :=
  match l with
  | [] => Py.Ok [x]
  | y :: l' =>
      b <- lt (fst y) (fst x) ;;
      if b then (r <- insert x l' ;; Py.Ok (y :: r))
      else Py.Ok (x :: y :: l')
  end.

(** The stable ascending sort of [list.sort], comparing with [<] only. The
    run time merges runs where this sort inserts; on keys that [<] orders,
    a stable sort has one outcome, and on two or more items every item
    meets a comparison, so that both raise [TypeError] on the same lists:
    those with a key that [<] refuses. *)
Fixpoint sort_keyed (l : list keyed) : Py.result (list keyed) :=
  match l with
  | [] => Py.Ok []
  | x :: l' => s <- sort_keyed l' ;; insert x s
  end.

(** [sorted(l, key=key, reverse=reverse)]: the keys first, then the
    stable sort; a reverse sort reverses the list, sorts, and reverses
    the outcome. *)
Definition sorted (l : list A) (key : A -> Py.result Py.value)
    (reverse : bool) : Py.result (list A) :=
  ks <- compute_keys key l ;;
  if reverse then
    s <- sort_keyed (rev ks) ;; Py.Ok (map snd (rev s))
  else
    s <- sort_keyed ks ;; Py.Ok (map snd s).

End Sorted.

Arguments insert {A} x l.
Arguments sort_keyed {A} l.
Arguments compute_keys {A} key l.
Arguments sorted {A} l key reverse.

Definition newline : Py.str := [10].

(** The first f-string of [export_to_markdown]. *)
Definition header (n : nat) : Py.str :=
  Py.lit "# Summer 2025 internship opportunities" ++ newline
  ++ newline
  ++ Py.lit "This list gets updated daily." ++ newline
  ++ newline
  ++ Py.lit "Posted on refers to the date when the offer was posted on LinkedIn."
  ++ newline
  ++ newline
  ++ Py.lit "## Available positions (" ++ Py.str_of_nat n ++ Py.lit " offers)"
  ++ newline
  ++ newline.

(** The f-string of the loop body: the section of one job. *)
Definition section (job : dict) : Py.result Py.str :=
  company <- getitem job (Py.lit "company_name") ;;
  position <- getitem job (Py.lit "title") ;;
  place <- getitem job (Py.lit "location") ;;
  posted <- getitem job (Py.lit "posted_date") ;;
  link <- getitem job (Py.lit "url") ;;
  Py.Ok (Py.lit "### " ++ Py.format company ++ newline
         ++ Py.lit "- **Position:** " ++ Py.format position ++ newline
         ++ Py.lit "- **Location:** " ++ Py.format place ++ newline
         ++ Py.lit "- **Posted on:** " ++ Py.format posted ++ newline
         ++ Py.lit "- [Apply here](" ++ Py.format link ++ Py.lit ")" ++ newline
         ++ newline).

(** The loop: [content += section] for each job in turn. *)
Fixpoint sections (content : Py.str) (jobs : list dict) : Py.result Py.str :=
  match jobs with
  | [] => Py.Ok content
  | job :: jobs' => s <- section job ;; sections (content ++ s) jobs'
  end.

(** The text [export_to_markdown] builds before it opens the file. *)
Definition render (jobs : list dict) : Py.result Py.str :=
  ordered <- sorted jobs (fun x => getitem x (Py.lit "posted_date")) true ;;
  sections (header (List.length jobs)) ordered.

(** A file, apart from the names that lead to it. *)
Definition file : Type := Py.str.

(** The files, as [export_to_markdown] meets them. Which file a name leads
    to, whether it can be opened and whether octets can be written to it is
    up to the file system: the record says so. *)
Record filesystem : Type := mkFilesystem {
  (** [open(name, "w", encoding="utf-8")]: the file the name leads to (two
      names may lead to one file), or what [open] raises: [OSError] for an
      empty name, a missing directory, a directory or a missing permission,
      [ValueError] for a name with a null character. *)
  open_for_writing : Py.str -> Py.result file;
  (** What each file holds; [None] for a file that does not exist. *)
  contents : file -> option Py.bytes;
  (** What writing octets to an opened file and closing it raises, if
      anything (a full disk), with the octets that did reach the file. *)
  write_failure : file -> Py.bytes -> option (Py.exn * Py.bytes)
}.

(** The file system once [f] holds [data]. *)
Definition store (fs : filesystem) (f : file) (data : Py.bytes) : filesystem :=
  {| open_for_writing := open_for_writing fs;
     contents := fun g => if Py.str_eqb g f then Some data else contents fs g;
     write_failure := write_failure fs |}.

(** [with open(name, "w", encoding="utf-8") as f: f.write(text)]: opening
    may raise, and then nothing changes; once opened the file is empty; the
    write encodes the text, which may raise and leave the file empty; the
    octets then go to the file, unless the file system fails. *)
Definition write_text (fs : filesystem) (name : Py.str) (text : Py.str)
  : filesystem * Py.result unit :=
  match open_for_writing fs name with
  | Py.Raise e => (fs, Py.Raise e)
  | Py.Ok f =>
      match Py.encode_utf8 text with
      | Py.Raise e => (store fs f [], Py.Raise e)
      | Py.Ok data =>
          match write_failure fs f data with
          | None => (store fs f data, Py.Ok tt)
          | Some (e, written) => (store fs f written, Py.Raise e)
          end
      end
  end.

(** [export_to_markdown(jobs, output_file)]. *)
Definition export_to_markdown (jobs : list dict) (output_file : Py.str)
    (fs : filesystem) : filesystem * Py.result unit :=
  match render jobs with
  | Py.Ok text => write_text fs output_file text
  | Py.Raise e => (fs, Py.Raise e)
  end.

Definition default_output_file : Py.str := Py.lit "README.md".

End MarkdownExport.

(** ** [scraper.py] *)

Module Scraper.

Import Offers.

(** *** The string methods the scraper calls *)

(** [c.isspace()] for a code point: the white space [str.strip] removes. *)
Definition is_space (c : Z) : bool :=
  ((0x09 <=? c) && (c <=? 0x0D))
  || ((0x1C <=? c) && (c <=? 0x20))
  || (c =? 0x85) || (c =? 0xA0) || (c =? 0x1680)
  || ((0x2000 <=? c) && (c <=? 0x200A))
  || (c =? 0x2028) || (c =? 0x2029) || (c =? 0x202F)
  || (c =? 0x205F) || (c =? 0x3000).

(** [s.lstrip()], [s.rstrip()] and [s.strip()]. *)
Fixpoint lstrip (s : Py.str) : Py.str :=
  match s with
  | [] => []
  | c :: s' => if is_space c then lstrip s' else s
  end.

Definition rstrip (s : Py.str) : Py.str := rev (lstrip (rev s)).

Definition strip (s : Py.str) : Py.str := rstrip (lstrip s).

(** [s.startswith(p)]. *)
Fixpoint startswith (s p : Py.str) : bool :=
  match p, s with
  | [], _ => true
  | _ :: _, [] => false
  | x :: p', y :: s' => if x =? y then startswith s' p' else false
  end.

(** [needle in hay] on [str]: [needle] occurs in [hay] as a substring. *)
Fixpoint contains (needle hay : Py.str) : bool :=
  if startswith hay needle then true
  else
    match hay with
    | [] => false
    | _ :: hay' => contains needle hay'
    end.

(** [s.replace(old, new)] for a pattern [old] of one character. *)
Fixpoint replace_char (s : Py.str) (old : Z) (new : Py.str) : Py.str :=
  match s with
  | [] => []
  | c :: s' =>
      if c =? old then new ++ replace_char s' old new
      else c :: replace_char s' old new
  end.

(** *** What the scraper raises *)

Inductive exn : Type :=
| TypeError
| AttributeError
| ScrapingError
| ParsingError (cause : exn).

Inductive outcome (A : Type) : Type :=
| Returned (a : A)
| Raised (e : exn).

Arguments Returned {A} a.
Arguments Raised {A} e.

Definition bind {A B : Type} (m : outcome A) (k : A -> outcome B) : outcome B :=
  match m with
  | Returned a => k a
  | Raised e => Raised e
  end.

Notation "x <~ m ;; k" := (bind m (fun x => k))
  (at level 61, m at next level, right associativity).

(** *** Job cards *)

(** An element of the parsed page, as the scraper reads it: its name, the
    tokens of its [class] attribute, its text (the strings below it, joined)
    and its attributes. *)
Record tag : Type := mkTag {
  tag_name : Py.str;
  tag_class : list Py.str;
  tag_text : Py.str;
  tag_attrs : list (Py.str * Py.str)
}.

(** A job card: the elements below its [div], in document order. *)
Definition card : Type := list tag.

Definition matches (name : Py.str) (class_ : option Py.str) (t : tag) : bool :=
  Py.str_eqb (tag_name t) name
  && match class_ with
     | None => true
     | Some k => existsb (Py.str_eqb k) (tag_class t)
     end.

(** [card.find(name, class_=...)]: the first matching element, or [None]. *)
Definition find (c : card) (name : Py.str) (class_ : option Py.str)
  : option tag :=
  List.find (matches name class_) c.

(** [element.get(attr)]: the value of the attribute, or [None]. *)
Fixpoint get_attr (attrs : list (Py.str * Py.str)) (attr : Py.str) : Py.value :=
  match attrs with
  | [] => Py.VNone
  | (k, v) :: attrs' =>
      if Py.str_eqb k attr then Py.VStr v else get_attr attrs' attr
  end.

Definition get (t : tag) (attr : Py.str) : Py.value :=
  get_attr (tag_attrs t) attr.

(** [element.text] of the outcome of a [find]: [None] has no [text]. *)
Definition text (element : option tag) : outcome Py.str :=
  match element with
  | Some t => Returned (tag_text t)
  | None => Raised AttributeError
  end.

(** *** [LinkedInScraper] *)

(** [_format_keywords]. *)
Definition _format_keywords (keywords : Py.str) : Py.str :=
  replace_char keywords 32 (Py.lit "%20").

(** [_parse_job_card]. *)
Definition _parse_job_card (c : card) : outcome JobOffer :=
  title_text <~ text (find c (Py.lit "h3") (Some (Py.lit "base-search-card__title"))) ;;
  name_text <~ text (find c (Py.lit "h4") (Some (Py.lit "base-search-card__subtitle"))) ;;
  location_text <~ text (find c (Py.lit "span") (Some (Py.lit "job-search-card__location"))) ;;
  let link := find c (Py.lit "a") (Some (Py.lit "base-card__full-link")) in
  let link_url :=
    match link with
    | Some l => get l (Py.lit "href")
    | None => Py.VNone
    end in
  let datetime_element := find c (Py.lit "time") None in
  let posted :=
    match datetime_element with
    | Some e => get e (Py.lit "datetime")
    | None => Py.VNone
    end in
  Returned {| title := Py.VStr (strip title_text);
              company_name := Py.VStr (strip name_text);
              location := Py.VStr (strip location_text);
              posted_date := posted;
              description := Py.VNone;
              url := link_url |}.

Definition dev_keywords : list Py.str :=
  map Py.lit
    ["software"; "developer"; "engineer"; "backend"; "frontend"; "fullstack";
     "full-stack"; "data"; "engineering"; "mobile"; "qa"; "security"; "web";
     "cloud"; "devops"]%string.

Definition excluded_keywords : list Py.str :=
  map Py.lit
    ["marketing"; "sales"; "business"; "finance"; "accounting"; "hr";
     "human resources"; "recruiter"; "customer"; "support"; "service";
     "content"; "design"; "product manager"; "project manager";
     "operations"]%string.

(** The answer of the server to a request, as [fetch_jobs] reads it: the
    status and the job cards [find_all] finds in the body. *)
Record response : Type := mkResponse {
  status : Z;
  cards : list card
}.

Section Lower.

(** [str.lower], the case mapping of the Unicode tables of the run time,
    is left open: what follows holds of any function. *)
Variable lower : Py.str -> Py.str.

(** [_filter_cards]. *)
Definition _filter_cards (c : card) : bool :=
  match find c (Py.lit "h3") (Some (Py.lit "base-search-card__title")) with
  | None => false
  | Some title_element =>
      let title_text := lower (strip (tag_text title_element)) in
      if negb (contains (Py.lit "intern") title_text)
         && negb (contains (Py.lit "internship") title_text)
      then false
      else if existsb (fun keyword => contains keyword title_text)
                excluded_keywords
      then false
      else existsb (fun keyword => contains keyword title_text) dev_keywords
  end.

(** The loop of [fetch_jobs] over the cards, with the jobs and the count
    of filtered cards so far. *)
Fixpoint collect (cs : list card) (jobs : list JobOffer) (filtered_count : nat)
  : outcome (list JobOffer * nat) :=
  match cs with
  | [] => Returned (jobs, filtered_count)
  | c :: cs' =>
      if negb (_filter_cards c) then collect cs' jobs (S filtered_count)
      else
        match _parse_job_card c with
        | Returned job => collect cs' (jobs ++ [job]) filtered_count
        | Raised e => Raised (ParsingError e)
        end
  end.

(** The address [fetch_jobs] requests. *)
Definition request_url (host geo_id keywords : Py.str) : Py.str :=
  host ++ Py.lit "/?keywords=" ++ _format_keywords keywords
       ++ Py.lit "&geoId=" ++ geo_id.

(** [fetch_jobs], awaited: [session] gives the answer to a request, which
    is taken to arrive. *)
Definition fetch_jobs (host : Py.str) (session : Py.str -> response)
    (geo_id keywords : Py.value) : outcome (list JobOffer) :=
  match geo_id, keywords with
  | Py.VStr geo, Py.VStr words =>
      let answer := session (request_url host geo words) in
      if negb (status answer =? 200) then Raised ScrapingError
      else
        jobs_and_count <~ collect (cards answer) [] O ;;
        Returned (fst jobs_and_count)
  | _, _ => Raised TypeError
  end.

End Lower.

End Scraper.

(** ** The ingestion loop of [main] *)

Module Main.

Section Ingest.

Variable Fingerprint : Type.
Variable fp_eq_dec : forall a b : Fingerprint, {a = b} + {a <> b}.
Variable fingerprint : Offers.JobOffer -> Fingerprint.

(** One turn of the loop of [main] over the gathered results: a result that
    is not [None] goes to [repo.add_jobs], and its count of new jobs is added
    to [total_new_jobs]. The repository is the one modelled from the
    specification. *)
Definition ingest_step (acc : nat * Repository.state Fingerprint)
    (jobs : option (list Offers.JobOffer))
  : nat * Repository.state Fingerprint :=
  match jobs with
  | Some batch =>
      let result := Repository.add_jobs fp_eq_dec fingerprint batch (snd acc) in
      ((fst acc + fst (fst result))%nat, snd result)
  | None => acc
  end.

(** The loop: [total_new_jobs] and the repository after it. *)
Definition ingest (results : list (option (list Offers.JobOffer)))
    (repo : Repository.state Fingerprint)
  : nat * Repository.state Fingerprint :=
  fold_left ingest_step results (O, repo).

End Ingest.

Arguments ingest_step {Fingerprint} fp_eq_dec fingerprint acc jobs.
Arguments ingest {Fingerprint} fp_eq_dec fingerprint results repo.

End Main.

(** ** Predicates and sample data of the statements *)

Import Offers.

Definition is_octet (b : Z) : Prop := 0 <= b < 256.


(** The text the f-string of [get_hash] builds. *)
Definition identity_text (r : JobOffer) : Py.str :=
  Py.format (company_name r) ++ Py.format (title r) ++ Py.format (location r).


(** Sample offers. *)
Definition acme_backend : JobOffer :=
  {| title := Py.VStr (Py.lit "Backend Intern");
     company_name := Py.VStr (Py.lit "Acme");
     location := Py.VStr (Py.lit "NYC");
     posted_date := Py.VStr (Py.lit "2025-05-01");
     description := Py.VNone;
     url := Py.VStr (Py.lit "https://example.com/A") |}.

Definition acme_backend_again : JobOffer :=
  {| title := Py.VStr (Py.lit "Backend Intern");
     company_name := Py.VStr (Py.lit "Acme");
     location := Py.VStr (Py.lit "NYC");
     posted_date := Py.VStr (Py.lit "2025-05-02");
     description := Py.VNone;
     url := Py.VStr (Py.lit "https://example.com/B") |}.

Definition acme_frontend : JobOffer :=
  {| title := Py.VStr (Py.lit "Frontend Intern");
     company_name := Py.VStr (Py.lit "Acme");
     location := Py.VStr (Py.lit "NYC");
     posted_date := Py.VStr (Py.lit "2025-05-02");
     description := Py.VNone;
     url := Py.VStr (Py.lit "https://example.com/C") |}.

(** An offer whose company name is the lone surrogate ["\ud83d"], the first
    half of an emoji cut in two. *)
Definition half_emoji_offer : JobOffer :=
  {| title := Py.VStr (Py.lit "Intern");
     company_name := Py.VStr [0xD83D];
     location := Py.VStr (Py.lit "Paris");
     posted_date := Py.VNone;
     description := Py.VNone;
     url := Py.VNone |}.


(** The first code point of a UTF-8 octet sequence and the octets after it:
    the inverse of [Py.encode_codepoint] on what it produces. *)
Definition decode_first (bs : Py.bytes) : option (Z * Py.bytes) :=
  match bs with
  | [] => None
  | b0 :: r =>
      if b0 <? 0x80 then Some (b0, r)
      else if b0 <? 0xE0 then
        match r with
        | b1 :: r' => Some ((b0 - 0xC0) * 64 + (b1 - 0x80), r')
        | _ => None
        end
      else if b0 <? 0xF0 then
        match r with
        | b1 :: b2 :: r' =>
            Some ((b0 - 0xE0) * 4096 + (b1 - 0x80) * 64 + (b2 - 0x80), r')
        | _ => None
        end
      else
        match r with
        | b1 :: b2 :: b3 :: r' =>
            Some ((b0 - 0xF0) * 262144 + (b1 - 0x80) * 4096
                  + (b2 - 0x80) * 64 + (b3 - 0x80), r')
        | _ => None
        end
  end.

(** [f] holds of [0 .. n - 1]. *)
Fixpoint all_below (n : nat) (f : Z -> bool) : bool :=
  match n with
  | O => true
  | S k => f (Z.of_nat k) && all_below k f
  end.

(** The fingerprint input as the specification words it: "if any input
    field is absent it must be treated as empty string (not null)". *)
Definition absent_as_empty (v : Py.value) : Py.str :=
  match v with
  | Py.VNone => []
  | Py.VStr s => s
  end.

(** The digest the specification's wording leads to, for comparison with
    [get_hash]. *)
Definition get_hash_absent_as_empty (r : JobOffer) : Py.result Py.str :=
  c <- Py.encode_utf8 (absent_as_empty (company_name r)
                       ++ absent_as_empty (title r)
                       ++ absent_as_empty (location r)) ;;
  Py.Ok (MD5.hexdigest c).



(** Offers that differ in letter case, in surrounding white space, or in
    the order of company and title. *)
Definition offer_of (company position place : string) : JobOffer :=
  {| title := Py.VStr (Py.lit position);
     company_name := Py.VStr (Py.lit company);
     location := Py.VStr (Py.lit place);
     posted_date := Py.VNone;
     description := Py.VNone;
     url := Py.VNone |}.

(** A change of the three fields that take no part in the fingerprint. *)
Definition with_other_fields (r : JobOffer) (posted about link : Py.value)
  : JobOffer :=
  {| title := title r;
     company_name := company_name r;
     location := location r;
     posted_date := posted;
     description := about;
     url := link |}.

(** Offers whose hashed text fills more than one block of the digest, alike
    but for the letter case of the last two letters or a space at the very
    end, and an offer with accented letters. *)
Definition long_offer : JobOffer :=
  offer_of "International Business Machines Corporation"
    "Software Engineering Intern (Summer 2025)" "Research Triangle Park, NC".

Definition long_offer_lower_case : JobOffer :=
  offer_of "International Business Machines Corporation"
    "Software Engineering Intern (Summer 2025)" "Research Triangle Park, nc".

Definition long_offer_trailing_space : JobOffer :=
  offer_of "International Business Machines Corporation"
    "Software Engineering Intern (Summer 2025)" "Research Triangle Park, NC ".

Definition accented_offer : JobOffer :=
  {| title := Py.VStr (Py.lit "Stagiaire d" ++ [233] ++ Py.lit "veloppeur");
     company_name :=
       Py.VStr (Py.lit "Soci" ++ [233] ++ Py.lit "t" ++ [233] ++ Py.lit " G"
                ++ [233] ++ Py.lit "n" ++ [233] ++ Py.lit "rale");
     location := Py.VStr (Py.lit "Paris");
     posted_date := Py.VNone;
     description := Py.VNone;
     url := Py.VNone |}.

(** Two offers that differ in white space only, a space at the end of the
    company name or at the start of the title. *)
Definition space_after_company : JobOffer := offer_of "Acme " "Intern" "Paris".

Definition space_before_title : JobOffer := offer_of "Acme" " Intern" "Paris".

(** The value of a hexadecimal digit, and the octets a hexadecimal text
    stands for. *)
Definition hex_value (c : Z) : Z := if c <? 58 then c - 48 else c - 87.

Fixpoint unhexlify (s : Py.str) : list Z :=
  match s with
  | high :: low :: s' => (16 * hex_value high + hex_value low) :: unhexlify s'
  | _ => []
  end.

(** ** The repository, said without the loop *)

Section RepositoryStatements.

Variable Fingerprint : Type.
Variable fp_eq_dec : forall a b : Fingerprint, {a = b} + {a <> b}.
Variable fingerprint : JobOffer -> Fingerprint.

(** The item the repository holds for a record. *)
Definition entry (r : JobOffer) : Fingerprint * JobOffer := (fingerprint r, r).

(** The records of a batch that a call inserts, given the fingerprints
    [seen] so far: the first record of each fingerprint not seen before. *)
Fixpoint fresh (seen : list Fingerprint) (records : list JobOffer)
  : list JobOffer :=
  match records with
  | [] => []
  | r :: rs =>
      if in_dec fp_eq_dec (fingerprint r) seen then fresh seen rs
      else r :: fresh (seen ++ [fingerprint r]) rs
  end.

(** Every item is filed under the fingerprint of its record. *)
Definition well_keyed (st : Repository.state Fingerprint) : Prop :=
  Forall (fun kv => fst kv = fingerprint (snd kv)) st.

End RepositoryStatements.

Arguments entry {Fingerprint} fingerprint r.
Arguments fresh {Fingerprint} fp_eq_dec fingerprint seen records.
Arguments well_keyed {Fingerprint} fingerprint st.

(** The repository of the program: records filed under the outcome of
    [get_hash]. *)
Definition outcome_eq_dec (a b : Py.result Py.str) : {a = b} + {a <> b}.
Proof.
  decide equality.
  - apply (list_eq_dec Z.eq_dec).
  - decide equality.
Defined.

Definition job_repository : Type := Repository.state (Py.result Py.str).

Definition repo_add_jobs (records : list JobOffer) (st : job_repository)
  : (nat * nat) * job_repository :=
  Repository.add_jobs outcome_eq_dec get_hash records st.

(** The end-to-end scenario of the specification: a first batch with one
    offer, then a batch with the same offer seen again and a new one. *)
Definition after_first_batch : job_repository :=
  snd (repo_add_jobs [acme_backend] Repository.empty).

Definition after_second_batch : job_repository :=
  snd (repo_add_jobs [acme_backend_again; acme_frontend] after_first_batch).

(** ** Sets of offers for the collision test *)

(** The identity of an offer: its (company, title, location) triple. *)
Definition identity (r : JobOffer) : Py.value * Py.value * Py.value :=
  (company_name r, title r, location r).

Definition identity_eqb (a b : Py.value * Py.value * Py.value) : bool :=
  if Py.value_eqb (fst (fst a)) (fst (fst b)) then
    if Py.value_eqb (snd (fst a)) (snd (fst b)) then
      Py.value_eqb (snd a) (snd b)
    else false
  else false.

Definition outcome_eqb (a b : Py.result Py.str) : bool :=
  match a, b with
  | Py.Ok s, Py.Ok t => Py.str_eqb s t
  | Py.Raise _, Py.Raise _ => true
  | _, _ => false
  end.

(** No element of [l] occurs twice, up to [eqb]. *)
Fixpoint distinctb {A : Type} (eqb : A -> A -> bool) (l : list A) : bool :=
  match l with
  | [] => true
  | x :: l' => negb (existsb (eqb x) l') && distinctb eqb l'
  end.

(** A generated set: the offers of ["Company 0"], ["Company 1"], ... for
    one position in one place. *)
Definition generated_offer (i : nat) : JobOffer :=
  {| title := Py.VStr (Py.lit "Software Engineer Intern");
     company_name := Py.VStr (Py.lit "Company " ++ Py.str_of_nat i);
     location := Py.VStr (Py.lit "Paris");
     posted_date := Py.VStr (Py.lit "2025-05-01");
     description := Py.VNone;
     url := Py.VNone |}.

Definition generated_offers (n : nat) : list JobOffer :=
  map generated_offer (seq 0 n).

(** Two offers with different triples and one concatenated text, followed
    by 998 generated ones. *)
Definition colliding_offers : list JobOffer :=
  offer_of "Meta" "DataEngineerIntern" "Paris"
  :: offer_of "MetaData" "EngineerIntern" "Paris"
  :: generated_offers 998.

(** ** The listing *)

(** An offer whose card carried no [time] element: [_parse_job_card] of
    [scraper.py] gives it the posted date [None]. *)
Definition undated_offer : JobOffer :=
  {| title := Py.VStr (Py.lit "Data Engineer Intern");
     company_name := Py.VStr (Py.lit "Globex");
     location := Py.VStr (Py.lit "Paris");
     posted_date := Py.VNone;
     description := Py.VNone;
     url := Py.VStr (Py.lit "https://example.com/D") |}.

(** A file system without files, in which a name leads to the file of that
    name, the empty name cannot be opened, and every write goes through. *)
Definition no_files : MarkdownExport.filesystem :=
  {| MarkdownExport.open_for_writing :=
       fun name => match name with
                   | [] => Py.Raise Py.OSError
                   | _ :: _ => Py.Ok name
                   end;
     MarkdownExport.contents := fun _ => None;
     MarkdownExport.write_failure := fun _ _ => None |}.

(** The key [export_to_markdown] sorts by. *)
Definition posted (job : dict) : Py.result Py.value :=
  getitem job (Py.lit "posted_date").

(** A job the listing has a section for: its posted date is a string and
    the four other keys of a section are present. *)
Definition listable (job : dict) : Prop :=
  (exists s, posted job = Py.Ok (Py.VStr s))
  /\ Py.returned (MarkdownExport.section job) = true.

(** [a] was not posted before [b]: the order of a newest-first listing. *)
Definition not_posted_before (a b : dict) : Prop :=
  exists s t, posted a = Py.Ok (Py.VStr s) /\ posted b = Py.Ok (Py.VStr t)
              /\ MarkdownExport.str_ltb s t = false.

Section SortedStatements.

Variable A : Type.
Variable key : A -> Py.result Py.value.

(** A keyed item carries the key of its item, a string. *)
Definition keyed_by_str (kx : MarkdownExport.keyed A) : Prop :=
  key (snd kx) = Py.Ok (fst kx) /\ exists s, fst kx = Py.VStr s.

(** [a <= b] on keyed items with string keys. *)
Definition key_le (a b : MarkdownExport.keyed A) : Prop :=
  exists s t, fst a = Py.VStr s /\ fst b = Py.VStr t
              /\ MarkdownExport.str_ltb t s = false.

(** [key a >= key b], both strings. *)
Definition key_ge (a b : A) : Prop :=
  exists s t, key a = Py.Ok (Py.VStr s) /\ key b = Py.Ok (Py.VStr t)
              /\ MarkdownExport.str_ltb s t = false.

End SortedStatements.

Arguments keyed_by_str {A} key kx.
Arguments key_le {A} a b.
Arguments key_ge {A} key a b.

(** ** Statements about the listing of offers *)

(** The section [export_to_markdown] writes for the mapping of an offer. *)
Definition offer_section (r : JobOffer) : Py.str :=
  Py.lit "### " ++ Py.format (company_name r) ++ MarkdownExport.newline
  ++ Py.lit "- **Position:** " ++ Py.format (title r) ++ MarkdownExport.newline
  ++ Py.lit "- **Location:** " ++ Py.format (location r) ++ MarkdownExport.newline
  ++ Py.lit "- **Posted on:** " ++ Py.format (posted_date r)
  ++ MarkdownExport.newline
  ++ Py.lit "- [Apply here](" ++ Py.format (url r) ++ Py.lit ")"
  ++ MarkdownExport.newline
  ++ MarkdownExport.newline.

(** Offer [a] was not posted before offer [b]. *)
Definition offer_not_posted_before (a b : JobOffer) : Prop :=
  exists s t, posted_date a = Py.VStr s /\ posted_date b = Py.VStr t
              /\ MarkdownExport.str_ltb s t = false.

(** The value is the string [s]. *)
Definition is_the_str (s : Py.str) (v : Py.value) : bool :=
  match v with
  | Py.VStr t => Py.str_eqb t s
  | Py.VNone => false
  end.

(** The key of the item is the string [day]. *)
Definition key_is {A : Type} (key : A -> Py.result Py.value) (day : Py.str)
    (x : A) : bool :=
  match key x with
  | Py.Ok v => is_the_str day v
  | Py.Raise _ => false
  end.

Definition keyed_is {A : Type} (day : Py.str) (kx : MarkdownExport.keyed A)
  : bool :=
  is_the_str day (fst kx).

(** The job was posted on [day]. *)
Definition posted_on (day : Py.str) (job : dict) : bool :=
  key_is posted day job.


(** ** Statements about the scraper *)

(** [k] occurs in [text]: some text before it, some text after it. *)
Definition occurs (k text : Py.str) : Prop :=
  exists before after, text = before ++ k ++ after.

(** The text has no white space at either end. *)
Definition stripped (s : Py.str) : Prop :=
  match s with
  | [] => True
  | c :: _ => Scraper.is_space c = false /\ Scraper.is_space (last s 0) = false
  end.

(** [dev_keywords] without ["engineering"], which ["engineer"] covers. *)
Definition dev_keywords_needed : list Py.str :=
  map Py.lit
    ["software"; "developer"; "engineer"; "backend"; "frontend"; "fullstack";
     "full-stack"; "data"; "mobile"; "qa"; "security"; "web"; "cloud";
     "devops"]%string.

(** What [str.lower] does to ASCII text: the letters [A-Z] become [a-z],
    every other character stays. Used to run the scraper on samples. *)
Definition ascii_lower (s : Py.str) : Py.str :=
  map (fun c => if (65 <=? c) && (c <=? 90) then c + 32 else c) s.

(** The title of a card, as [_filter_cards] reads it. *)
Definition title_element (c : Scraper.card) : option Scraper.tag :=
  Scraper.find c (Py.lit "h3") (Some (Py.lit "base-search-card__title")).

Definition company_element (c : Scraper.card) : option Scraper.tag :=
  Scraper.find c (Py.lit "h4") (Some (Py.lit "base-search-card__subtitle")).

Definition location_element (c : Scraper.card) : option Scraper.tag :=
  Scraper.find c (Py.lit "span") (Some (Py.lit "job-search-card__location")).

Definition time_element (c : Scraper.card) : option Scraper.tag :=
  Scraper.find c (Py.lit "time") None.

Definition link_element (c : Scraper.card) : option Scraper.tag :=
  Scraper.find c (Py.lit "a") (Some (Py.lit "base-card__full-link")).

(** Sample cards. *)
Definition element (name class_ content : string)
    (attrs : list (string * string)) : Scraper.tag :=
  {| Scraper.tag_name := Py.lit name;
     Scraper.tag_class := [Py.lit class_];
     Scraper.tag_text := Py.lit content;
     Scraper.tag_attrs := map (fun kv => (Py.lit (fst kv), Py.lit (snd kv))) attrs |}.

Definition sample_card (position company place : string)
    (rest : list Scraper.tag) : Scraper.card :=
  element "a" "base-card__full-link" "" [("href", "https://example.com/job")]%string
  :: element "h3" "base-search-card__title" position []
  :: element "h4" "base-search-card__subtitle" company []
  :: element "span" "job-search-card__location" place []
  :: rest.

Definition dated_card : Scraper.card :=
  sample_card "  Software Engineer Intern " " Acme " "Paris"
    [element "time" "job-search-card__listdate" "2 days ago"
       [("datetime", "2025-05-01")]%string].

Definition undated_card : Scraper.card :=
  sample_card "Backend Developer Intern" "Globex" "Lyon" [].

Definition chrome_card : Scraper.card :=
  sample_card "Chrome Software Engineer Intern" "Initech" "Paris" [].

Definition sales_card : Scraper.card :=
  sample_card "Sales Intern" "Initech" "Paris" [].

Definition no_company_card : Scraper.card :=
  [element "h3" "base-search-card__title" "Data Engineer Intern" [];
   element "span" "job-search-card__location" "Paris" []].

(** A server that answers every request with the same three cards. *)
Definition sample_session (address : Py.str) : Scraper.response :=
  {| Scraper.status := 200;
     Scraper.cards := [dated_card; sales_card; undated_card] |}.

(** The card parses to the job. *)
Definition parses_to (c : Scraper.card) (job : JobOffer) : Prop :=
  Scraper._parse_job_card c = Scraper.Returned job.

(** The card does not parse. *)
Definition unparsable (c : Scraper.card) : Prop :=
  title_element c = None \/ company_element c = None
  \/ location_element c = None.

(** The offers of the sample cards. *)
Definition offer_of_card_dated : JobOffer :=
  {| title := Py.VStr (Py.lit "Software Engineer Intern");
     company_name := Py.VStr (Py.lit "Acme");
     location := Py.VStr (Py.lit "Paris");
     posted_date := Py.VStr (Py.lit "2025-05-01");
     description := Py.VNone;
     url := Py.VStr (Py.lit "https://example.com/job") |}.

Definition offer_of_card_undated : JobOffer :=
  {| title := Py.VStr (Py.lit "Backend Developer Intern");
     company_name := Py.VStr (Py.lit "Globex");
     location := Py.VStr (Py.lit "Lyon");
     posted_date := Py.VNone;
     description := Py.VNone;
     url := Py.VStr (Py.lit "https://example.com/job") |}.

(** The jobs of the gathered results, in order, the [None] results left
    out. *)
Definition all_jobs_of (results : list (option (list JobOffer)))
  : list JobOffer :=
  List.concat (map (fun jobs => match jobs with
                                | Some batch => batch
                                | None => []
                                end) results).




(* ===================================================================== *)
(** * Part II: properties *)
(* ===================================================================== *)

(** ** MD5 against known digests *)

Example md5_empty :
  MD5.hexdigest [] = Py.lit "d41d8cd98f00b204e9800998ecf8427e".
Proof. vm_compute. reflexivity. Qed.

Example md5_abc :
  (b <- Py.encode_utf8 (Py.lit "abc") ;; Py.Ok (MD5.hexdigest b))
  = Py.Ok (Py.lit "900150983cd24fb0d6963f7d28e17f72").
Proof. vm_compute. reflexivity. Qed.

Example md5_fox :
  (b <- Py.encode_utf8 (Py.lit "The quick brown fox jumps over the lazy dog") ;;
   Py.Ok (MD5.hexdigest b))
  = Py.Ok (Py.lit "9e107d9d372bb6826bd81d3542a419d6").
Proof. vm_compute. reflexivity. Qed.

Example md5_a56 :
  MD5.hexdigest (repeat 97 56) = Py.lit "3b0c8ac703f828b04c6c197006d17218".
Proof. vm_compute. reflexivity. Qed.

Example md5_a64 :
  MD5.hexdigest (repeat 97 64) = Py.lit "014842d480b571495a4a0363793f7367".
Proof. vm_compute. reflexivity. Qed.

Example md5_a119 :
  MD5.hexdigest (repeat 97 119) = Py.lit "8a7bd0732ed6a28ce75f6dabc90e1613".
Proof. vm_compute. reflexivity. Qed.

(** "héllo € 😀" *)
Example md5_unicode :
  (b <- Py.encode_utf8 [104; 0xE9; 108; 108; 111; 32; 0x20AC; 32; 0x1F600] ;;
   Py.Ok (b, MD5.hexdigest b))
  = Py.Ok ([104; 0xC3; 0xA9; 108; 108; 111; 32; 0xE2; 0x82; 0xAC; 32;
            0xF0; 0x9F; 0x98; 0x80],
           Py.lit "b69235094d40d8cc2b1e0ae5e0abdb1c").
Proof. vm_compute. reflexivity. Qed.

(** ** Text and its UTF-8 encoding *)

Lemma bind_ok {A B : Type} (m : Py.result A) (k : A -> Py.result B) (b : B) :
  Py.bind m k = Py.Ok b -> exists a, m = Py.Ok a /\ k a = Py.Ok b.
Proof.
  destruct m as [a | e]; simpl; intros H.
  - exists a. split; [reflexivity | exact H].
  - discriminate H.
Qed.

Lemma encode_codepoint_scalar (c : Z) :
  Py.is_scalar c = true -> exists b, Py.encode_codepoint c = Py.Ok b.
Proof.
  intros H. unfold Py.encode_codepoint. rewrite H. simpl.
  destruct (c <? 0x80); [eexists; reflexivity |].
  destruct (c <? 0x800); [eexists; reflexivity |].
  destruct (c <? 0x10000); eexists; reflexivity.
Qed.

Lemma encode_codepoint_not_scalar (c : Z) :
  Py.is_scalar c = false -> Py.encode_codepoint c = Py.Raise Py.UnicodeEncodeError.
Proof. intros H. unfold Py.encode_codepoint. rewrite H. reflexivity. Qed.

(** Encoding returns on exactly the strings without surrogates. *)
Lemma encode_utf8_encodable (s : Py.str) :
  Py.encodable s -> exists b, Py.encode_utf8 s = Py.Ok b.
Proof.
  induction 1 as [| c s Hc _ IH]; simpl.
  - exists []. reflexivity.
  - destruct (encode_codepoint_scalar c Hc) as [b Hb].
    destruct IH as [bs Hbs].
    exists (b ++ bs). rewrite Hb, Hbs. reflexivity.
Qed.

Lemma encode_utf8_returns (s : Py.str) (b : Py.bytes) :
  Py.encode_utf8 s = Py.Ok b -> Py.encodable s.
Proof.
  revert b. induction s as [| c s IH]; intros b H.
  - constructor.
  - simpl in H.
    apply bind_ok in H. destruct H as [bc [Hc H]].
    apply bind_ok in H. destruct H as [bs [Hs _]].
    constructor.
    + destruct (Py.is_scalar c) eqn:E; [reflexivity |].
      rewrite (encode_codepoint_not_scalar c E) in Hc. discriminate Hc.
    + exact (IH bs Hs).
Qed.

Lemma encodable_app (s t : Py.str) :
  Py.encodable (s ++ t) <-> Py.encodable s /\ Py.encodable t.
Proof. unfold Py.encodable. apply Forall_app. Qed.


(** *** UTF-8 keeps the text: encoding is injective *)

Lemma all_below_spec (n : nat) (f : Z -> bool) :
  all_below n f = true -> forall x, 0 <= x < Z.of_nat n -> f x = true.
Proof.
  induction n as [| k IH]; intros H x Hx.
  - lia.
  - cbn [all_below] in H. apply andb_prop in H. destruct H as [Hk Hr].
    destruct (Z.eq_dec x (Z.of_nat k)) as [-> | Hne].
    + exact Hk.
    + apply IH; [exact Hr | lia].
Qed.

(** A lead or continuation marker and the payload below it share no bit. *)
Lemma lor_marker (m x : Z) (n : nat) :
  all_below n (fun y => Z.lor m y =? m + y) = true ->
  0 <= x < Z.of_nat n -> Z.lor m x = m + x.
Proof.
  intros H Hx. apply Z.eqb_eq.
  exact (all_below_spec n (fun y => Z.lor m y =? m + y) H x Hx).
Qed.

Lemma lor_continuation (x : Z) : 0 <= x < 64 -> Z.lor 0x80 x = 0x80 + x.
Proof. intros H. apply (lor_marker 0x80 x 64); [reflexivity | lia]. Qed.

Lemma lor_lead2 (x : Z) : 0 <= x < 32 -> Z.lor 0xC0 x = 0xC0 + x.
Proof. intros H. apply (lor_marker 0xC0 x 32); [reflexivity | lia]. Qed.

Lemma lor_lead3 (x : Z) : 0 <= x < 16 -> Z.lor 0xE0 x = 0xE0 + x.
Proof. intros H. apply (lor_marker 0xE0 x 16); [reflexivity | lia]. Qed.

Lemma lor_lead4 (x : Z) : 0 <= x < 8 -> Z.lor 0xF0 x = 0xF0 + x.
Proof. intros H. apply (lor_marker 0xF0 x 8); [reflexivity | lia]. Qed.

Lemma land_low6 (x : Z) : Z.land x 0x3F = x mod 64.
Proof. change 0x3F with (Z.ones 6). rewrite Z.land_ones by lia. reflexivity. Qed.

Lemma shiftr_div (x n : Z) : 0 <= n -> Z.shiftr x n = x / 2 ^ n.
Proof. intros H. apply Z.shiftr_div_pow2. exact H. Qed.

Lemma is_scalar_range (c : Z) :
  Py.is_scalar c = true ->
  0 <= c < 0x110000 /\ (c < 0xD800 \/ 0xDFFF < c).
Proof.
  unfold Py.is_scalar, Py.is_codepoint, Py.is_surrogate. intros H.
  apply andb_prop in H. destruct H as [H1 H2].
  apply andb_prop in H1. destruct H1 as [H0 H1].
  apply Z.leb_le in H0. apply Z.ltb_lt in H1.
  apply negb_true_iff in H2. apply andb_false_iff in H2.
  split; [lia |].
  destruct H2 as [H2 | H2]; [left; apply Z.leb_gt in H2 | right; apply Z.leb_gt in H2]; lia.
Qed.

Local Opaque Z.lor Z.land Z.shiftr Z.add Z.sub Z.mul Z.div Z.modulo Z.ltb.

(** Decoding undoes the encoding of one code point, whatever follows. *)
Lemma decode_first_encode (c : Z) (b r : Py.bytes) :
  Py.encode_codepoint c = Py.Ok b -> decode_first (b ++ r) = Some (c, r).
Proof.
  unfold Py.encode_codepoint.
  destruct (Py.is_scalar c) eqn:Hs; cbn [negb]; [| discriminate].
  apply is_scalar_range in Hs. destruct Hs as [Hc _].
  destruct (Z.ltb_spec c 0x80) as [H1 | H1].
  { intros [= <-]. cbn [app decode_first].
    destruct (Z.ltb_spec c 0x80); [reflexivity | lia]. }
  destruct (Z.ltb_spec c 0x800) as [H2 | H2].
  { intros [= <-]. cbn [app decode_first].
    rewrite land_low6, (shiftr_div c 6) by lia.
    change (2 ^ 6) with 64.
    rewrite lor_lead2 by (split; [apply Z.div_pos | apply Z.div_lt_upper_bound]; lia).
    rewrite lor_continuation by (apply Z.mod_pos_bound; lia).
    destruct (Z.ltb_spec (0xC0 + c / 64) 0x80) as [H | H].
    { exfalso. assert (0 <= c / 64) by (apply Z.div_pos; lia). lia. }
    destruct (Z.ltb_spec (0xC0 + c / 64) 0xE0) as [H' | H'].
    - f_equal. f_equal. pose proof (Z.div_mod c 64). lia.
    - exfalso. assert (c / 64 < 32) by (apply Z.div_lt_upper_bound; lia). lia. }
  destruct (Z.ltb_spec c 0x10000) as [H3 | H3].
  { intros [= <-]. cbn [app decode_first].
    rewrite !land_low6, (shiftr_div c 6), (shiftr_div c 12) by lia.
    change (2 ^ 6) with 64. change (2 ^ 12) with 4096.
    rewrite lor_lead3 by (split; [apply Z.div_pos | apply Z.div_lt_upper_bound]; lia).
    rewrite !lor_continuation by (apply Z.mod_pos_bound; lia).
    assert (Hq : 0 <= c / 4096 < 16)
      by (split; [apply Z.div_pos | apply Z.div_lt_upper_bound]; lia).
    destruct (Z.ltb_spec (0xE0 + c / 4096) 0x80) as [H | H]; [lia |].
    destruct (Z.ltb_spec (0xE0 + c / 4096) 0xE0) as [H' | H'].
    { exfalso. assert (1 <= c / 4096) by (apply Z.div_le_lower_bound; lia). lia. }
    destruct (Z.ltb_spec (0xE0 + c / 4096) 0xF0) as [H'' | H'']; [| lia].
    f_equal. f_equal. Z.div_mod_to_equations. lia. }
  intros [= <-]. cbn [app decode_first].
  rewrite !land_low6, (shiftr_div c 6), (shiftr_div c 12), (shiftr_div c 18) by lia.
  change (2 ^ 6) with 64. change (2 ^ 12) with 4096. change (2 ^ 18) with 262144.
  assert (Hq : 0 <= c / 262144 < 8)
    by (split; [apply Z.div_pos | apply Z.div_lt_upper_bound]; lia).
  rewrite lor_lead4 by exact Hq.
  rewrite !lor_continuation by (apply Z.mod_pos_bound; lia).
  destruct (Z.ltb_spec (0xF0 + c / 262144) 0x80) as [H | H]; [lia |].
  destruct (Z.ltb_spec (0xF0 + c / 262144) 0xE0) as [H' | H']; [lia |].
  destruct (Z.ltb_spec (0xF0 + c / 262144) 0xF0) as [H'' | H'']; [lia |].
  f_equal. f_equal. Z.div_mod_to_equations. lia.
Qed.

Local Transparent Z.lor Z.land Z.shiftr Z.add Z.sub Z.mul Z.div Z.modulo Z.ltb.

(** Two texts with the same encoding are the same text. *)
Lemma encode_utf8_inj (s1 s2 : Py.str) (b : Py.bytes) :
  Py.encode_utf8 s1 = Py.Ok b -> Py.encode_utf8 s2 = Py.Ok b -> s1 = s2.
Proof.
  revert s2 b. induction s1 as [| c1 s1 IH]; intros s2 b H1 H2.
  - injection H1 as <-. destruct s2 as [| c2 s2]; [reflexivity |].
    cbn [Py.encode_utf8] in H2.
    apply bind_ok in H2. destruct H2 as [b2 [Hc2 H2]].
    apply bind_ok in H2. destruct H2 as [bs2 [_ H2]].
    injection H2 as H2.
    pose proof (decode_first_encode c2 b2 bs2 Hc2) as D.
    rewrite H2 in D. discriminate D.
  - cbn [Py.encode_utf8] in H1.
    apply bind_ok in H1. destruct H1 as [b1 [Hc1 H1]].
    apply bind_ok in H1. destruct H1 as [bs1 [Hs1 H1]].
    injection H1 as H1.
    pose proof (decode_first_encode c1 b1 bs1 Hc1) as D1.
    destruct s2 as [| c2 s2].
    + injection H2 as H2. rewrite H1, <- H2 in D1. discriminate D1.
    + cbn [Py.encode_utf8] in H2.
      apply bind_ok in H2. destruct H2 as [b2 [Hc2 H2]].
      apply bind_ok in H2. destruct H2 as [bs2 [Hs2 H2]].
      injection H2 as H2.
      pose proof (decode_first_encode c2 b2 bs2 Hc2) as D2.
      rewrite H1 in D1. rewrite H2 in D2. rewrite D1 in D2.
      injection D2 as -> ->.
      f_equal. exact (IH s2 bs2 Hs1 Hs2).
Qed.

(** ** The digest and its hexadecimal form *)

Lemma le_split_length (n : nat) (w : Z) : List.length (MD5.le_split n w) = n.
Proof.
  revert w. induction n as [| n IH]; intros w; simpl.
  - reflexivity.
  - rewrite IH. reflexivity.
Qed.

Lemma le_split_octets (n : nat) (w : Z) : Forall is_octet (MD5.le_split n w).
Proof.
  revert w. induction n as [| n IH]; intros w; simpl; constructor.
  - unfold is_octet. apply Z.mod_pos_bound. lia.
  - apply IH.
Qed.

Lemma digest_length (msg : list Z) : List.length (MD5.digest msg) = 16%nat.
Proof.
  unfold MD5.digest. rewrite !length_app, !le_split_length. reflexivity.
Qed.

Lemma digest_octets (msg : list Z) : Forall is_octet (MD5.digest msg).
Proof.
  unfold MD5.digest. rewrite !Forall_app.
  repeat split; apply le_split_octets.
Qed.







(** ** [get_hash] *)

Lemma get_hash_returns (r : JobOffer) :
  Py.encodable (identity_text r) ->
  exists c, content r = Py.Ok c /\ get_hash r = Py.Ok (MD5.hexdigest c).
Proof.
  intros H. destruct (encode_utf8_encodable _ H) as [c Hc].
  exists c. unfold get_hash, content. fold (identity_text r).
  rewrite Hc. split; reflexivity.
Qed.

Lemma encode_utf8_raises (s : Py.str) (e : Py.exn) :
  Py.encode_utf8 s = Py.Raise e -> e = Py.UnicodeEncodeError.
Proof.
  revert e. induction s as [| c s IH]; intros e E.
  - discriminate E.
  - cbn [Py.encode_utf8] in E.
    destruct (Py.is_scalar c) eqn:Hc.
    + destruct (encode_codepoint_scalar c Hc) as [b Hb].
      rewrite Hb in E. cbn [Py.bind] in E.
      destruct (Py.encode_utf8 s) as [bs | e'].
      * discriminate E.
      * cbn [Py.bind] in E. injection E as <-. apply IH. reflexivity.
    + rewrite (encode_codepoint_not_scalar c Hc) in E.
      cbn [Py.bind] in E. injection E as <-. reflexivity.
Qed.




Example get_hash_acme_backend :
  get_hash acme_backend = Py.Ok (Py.lit "c2ba8e2938c8c0d460ed3586bd4d27a9").
Proof. vm_compute. reflexivity. Qed.

(** *** Claim C10 *)

(** C10. For every job offer, [to] returns a mapping whose keys are exactly
    the six field names [title], [company_name], [location], [posted_date],
    [description], [url], each mapped to the offer's value of that field. *)
Theorem to_keys_and_values (r : JobOffer) :
  keys (to r)
  = [Py.lit "title"; Py.lit "company_name"; Py.lit "location";
     Py.lit "posted_date"; Py.lit "description"; Py.lit "url"]
  /\ getitem (to r) (Py.lit "title") = Py.Ok (title r)
  /\ getitem (to r) (Py.lit "company_name") = Py.Ok (company_name r)
  /\ getitem (to r) (Py.lit "location") = Py.Ok (location r)
  /\ getitem (to r) (Py.lit "posted_date") = Py.Ok (posted_date r)
  /\ getitem (to r) (Py.lit "description") = Py.Ok (description r)
  /\ getitem (to r) (Py.lit "url") = Py.Ok (url r).
Proof.
  assert (E : to r = items r) by reflexivity.
  rewrite E. unfold items, keys.
  repeat split; reflexivity.
Qed.

(** *** Claim C9 *)







(** *** Claim C6 *)




(** *** Claim C3 *)

Lemma content_keeps_text (r1 r2 : JobOffer) (c : Py.bytes) :
  content r1 = Py.Ok c -> content r2 = Py.Ok c ->
  identity_text r1 = identity_text r2.
Proof. unfold content. intros H1 H2. exact (encode_utf8_inj _ _ c H1 H2). Qed.

(** A change in one field alone changes the hashed octets. *)
Lemma content_keeps_field (r1 r2 : JobOffer) (c : Py.bytes) :
  content r1 = Py.Ok c -> content r2 = Py.Ok c ->
  (Py.format (title r1) = Py.format (title r2) ->
   Py.format (location r1) = Py.format (location r2) ->
   Py.format (company_name r1) = Py.format (company_name r2))
  /\ (Py.format (company_name r1) = Py.format (company_name r2) ->
      Py.format (location r1) = Py.format (location r2) ->
      Py.format (title r1) = Py.format (title r2))
  /\ (Py.format (company_name r1) = Py.format (company_name r2) ->
      Py.format (title r1) = Py.format (title r2) ->
      Py.format (location r1) = Py.format (location r2)).
Proof.
  intros H1 H2. pose proof (content_keeps_text r1 r2 c H1 H2) as E.
  unfold identity_text in E.
  split; [| split].
  - intros Ht Hl. rewrite Ht, Hl in E. exact (app_inv_tail _ _ _ E).
  - intros Hc Hl. rewrite Hc, Hl in E. apply app_inv_head in E.
    exact (app_inv_tail _ _ _ E).
  - intros Hc Ht. rewrite Hc, Ht in E. apply app_inv_head in E.
    exact (app_inv_head _ _ _ E).
Qed.

Lemma hex_value_digit (n : Z) :
  0 <= n < 16 -> hex_value (MD5.hex_digit n) = n.
Proof.
  intros H. apply Z.eqb_eq.
  exact (all_below_spec 16 (fun m => hex_value (MD5.hex_digit m) =? m)
           eq_refl n H).
Qed.

(** The hexadecimal form keeps the octets. *)
Lemma unhexlify_hex (bs : list Z) :
  Forall is_octet bs -> unhexlify (flat_map MD5.hex_byte bs) = bs.
Proof.
  induction 1 as [| b bs Hb _ IH]; cbn [flat_map].
  - reflexivity.
  - unfold MD5.hex_byte at 1. cbn [app unhexlify]. rewrite IH.
    unfold is_octet in Hb.
    rewrite !hex_value_digit.
    + f_equal. pose proof (Z.div_mod b 16). lia.
    + apply Z.mod_pos_bound. lia.
    + split; [apply Z.div_pos; lia | apply Z.div_lt_upper_bound; lia].
Qed.

(** C3, as stated, fails: [space_after_company] and [space_before_title]
    differ in white space, the company name by a space at its end and the
    title by a space at its start, and in nothing else, as stripping the
    fields shows; [get_hash] returns the same fingerprint for both. *)
Lemma get_hash_whitespace_difference_same_fingerprint :
  company_name space_after_company <> company_name space_before_title
  /\ title space_after_company <> title space_before_title
  /\ location space_after_company = location space_before_title
  /\ Scraper.strip (Py.format (company_name space_after_company))
     = Scraper.strip (Py.format (company_name space_before_title))
  /\ Scraper.strip (Py.format (title space_after_company))
     = Scraper.strip (Py.format (title space_before_title))
  /\ get_hash space_after_company
     = Py.Ok (Py.lit "6b2b1b7dea75e37c8e0b57496c94e09f")
  /\ get_hash space_after_company = get_hash space_before_title.
Proof.
  split; [discriminate |]. split; [discriminate |].
  repeat split; vm_compute; reflexivity.
Qed.

(** C3, as amended. For every job offer, the fingerprint is the hexadecimal
    form of the MD5 digest, sixteen octets or 128 bits whatever the length of
    the text, of the UTF-8 octets of company name, title and location
    concatenated in that order; the hexadecimal form keeps the sixteen
    octets. The exact strings are hashed, without normalization: the hashed
    octets determine the concatenated text, and a difference in one field
    alone, of letter case, white space or anything else, gives other octets
    to hash. No other field takes part. On the samples the fingerprints are
    the digests the run time gives, for a short text, a text of two blocks
    and a text with accented letters, and a change of letter case or of white
    space, at the start of the text or at its very end, or of the order of
    the fields gives another fingerprint. *)
Theorem get_hash_over_exact_identity_text (r : JobOffer) :
  content r
  = Py.encode_utf8 (Py.format (company_name r) ++ Py.format (title r)
                    ++ Py.format (location r))
  /\ (forall c t l, company_name r = Py.VStr c -> title r = Py.VStr t ->
        location r = Py.VStr l -> content r = Py.encode_utf8 (c ++ t ++ l))
  /\ get_hash r = (c <- content r ;; Py.Ok (flat_map MD5.hex_byte (MD5.digest c)))
  /\ (forall c, List.length (MD5.digest c) = 16%nat
                /\ Forall is_octet (MD5.digest c)
                /\ unhexlify (MD5.hexdigest c) = MD5.digest c)
  /\ (forall r' c, content r = Py.Ok c -> content r' = Py.Ok c ->
        identity_text r' = identity_text r
        /\ (Py.format (title r') = Py.format (title r) ->
            Py.format (location r') = Py.format (location r) ->
            Py.format (company_name r') = Py.format (company_name r))
        /\ (Py.format (company_name r') = Py.format (company_name r) ->
            Py.format (location r') = Py.format (location r) ->
            Py.format (title r') = Py.format (title r))
        /\ (Py.format (company_name r') = Py.format (company_name r) ->
            Py.format (title r') = Py.format (title r) ->
            Py.format (location r') = Py.format (location r)))
  /\ (forall posted about link,
        get_hash (with_other_fields r posted about link) = get_hash r)
  /\ get_hash acme_backend = Py.Ok (Py.lit "c2ba8e2938c8c0d460ed3586bd4d27a9")
  /\ get_hash long_offer = Py.Ok (Py.lit "8ccd6447315767d005b8b7f36b354f09")
  /\ get_hash long_offer_lower_case
     = Py.Ok (Py.lit "455dddc0da4b83eac99810ba356ae434")
  /\ get_hash long_offer_trailing_space
     = Py.Ok (Py.lit "943caae12580ae0794ed8c8915ad648c")
  /\ get_hash accented_offer
     = Py.Ok (Py.lit "017f9d8a51380dec8cef80af68f7cd1e")
  /\ get_hash long_offer <> get_hash long_offer_lower_case
  /\ get_hash long_offer <> get_hash long_offer_trailing_space
  /\ get_hash (offer_of "Acme Inc." "Intern" "Paris")
     <> get_hash (offer_of "ACME INC." "Intern" "Paris")
  /\ get_hash (offer_of "Acme" "Intern" "Paris")
     <> get_hash (offer_of "Acme " "Intern" "Paris")
  /\ get_hash (offer_of "Acme" "Intern" "Paris")
     <> get_hash (offer_of "Intern" "Acme" "Paris").
Proof.
  split; [reflexivity |].
  split.
  { intros c t l Hc Ht Hl. unfold content. rewrite Hc, Ht, Hl. reflexivity. }
  split; [reflexivity |].
  split.
  { intros c. split; [apply digest_length |].
    split; [apply digest_octets |].
    apply unhexlify_hex. apply digest_octets. }
  split.
  { intros r' c H H'.
    split; [exact (content_keeps_text r' r c H' H) |].
    exact (content_keeps_field r' r c H' H). }
  split; [intros posted about link; reflexivity |].
  repeat (split; [vm_compute; reflexivity |]).
  repeat (split; [intros H; vm_compute in H; discriminate H |]).
  intros H. vm_compute in H. discriminate H.
Qed.

(** ** The repository *)

Section RepositoryFacts.

Variable Fingerprint : Type.
Variable fp_eq_dec : forall a b : Fingerprint, {a = b} + {a <> b}.
Variable fingerprint : JobOffer -> Fingerprint.

Local Abbreviation state := (Repository.state Fingerprint).
Local Abbreviation keys := Repository.keys.
Local Abbreviation has_key := (Repository.has_key fp_eq_dec).
Local Abbreviation lookup := (Repository.lookup fp_eq_dec).
Local Abbreviation add_job := (Repository.add_job fp_eq_dec fingerprint).
Local Abbreviation add_jobs := (Repository.add_jobs fp_eq_dec fingerprint).
Local Abbreviation get_all_jobs := Repository.get_all_jobs.
Local Abbreviation reachable := (Repository.reachable fp_eq_dec fingerprint).
Local Abbreviation fresh := (fresh fp_eq_dec fingerprint).
Local Abbreviation entry := (entry fingerprint).
Local Abbreviation well_keyed := (well_keyed fingerprint).

Lemma has_key_true (st : state) (k : Fingerprint) :
  has_key st k = true <-> In k (keys st).
Proof.
  unfold Repository.has_key, Repository.keys. rewrite existsb_exists, in_map_iff.
  split.
  - intros [kv [Hin Hk]]. exists kv.
    destruct (fp_eq_dec (fst kv) k) as [E | _]; [| discriminate Hk].
    split; assumption.
  - intros [kv [E Hin]]. exists kv. split; [exact Hin |].
    destruct (fp_eq_dec (fst kv) k) as [_ | N]; [reflexivity | contradiction].
Qed.

Lemma has_key_false (st : state) (k : Fingerprint) :
  has_key st k = false <-> ~ In k (keys st).
Proof.
  rewrite <- has_key_true. destruct (has_key st k); split; intros H.
  - discriminate H.
  - elim H. reflexivity.
  - intros H'. discriminate H'.
  - reflexivity.
Qed.

Lemma keys_app (st st' : state) : keys (st ++ st') = keys st ++ keys st'.
Proof. unfold Repository.keys. apply map_app. Qed.

Lemma add_job_known (st : state) (n : nat) (r : JobOffer) :
  In (fingerprint r) (keys st) -> add_job (st, n) r = (st, n).
Proof.
  intros H. unfold Repository.add_job. cbn [fst snd].
  rewrite (proj2 (has_key_true st (fingerprint r)) H). reflexivity.
Qed.

Lemma add_job_new (st : state) (n : nat) (r : JobOffer) :
  ~ In (fingerprint r) (keys st) -> add_job (st, n) r = (st ++ [entry r], S n).
Proof.
  intros H. unfold Repository.add_job. cbn [fst snd].
  rewrite (proj2 (has_key_false st (fingerprint r)) H). reflexivity.
Qed.

(** The loop of [add_jobs], from any mapping and any count. *)
Lemma loop_fresh (records : list JobOffer) (st : state) (n : nat) :
  fold_left add_job records (st, n)
  = (st ++ map entry (fresh (keys st) records),
     (n + List.length (fresh (keys st) records))%nat).
Proof.
  revert st n. induction records as [| r rs IH]; intros st n.
  - cbn [fold_left fresh map List.length]. rewrite app_nil_r, Nat.add_0_r.
    reflexivity.
  - cbn [fold_left fresh].
    destruct (in_dec fp_eq_dec (fingerprint r) (keys st)) as [Hin | Hout].
    + rewrite (add_job_known st n r Hin). apply IH.
    + rewrite (add_job_new st n r Hout), IH.
      rewrite keys_app. change (keys [entry r]) with [fingerprint r].
      rewrite <- app_assoc. cbn [app map List.length].
      f_equal. lia.
Qed.

Lemma add_jobs_fresh (records : list JobOffer) (st : state) :
  add_jobs records st
  = ((List.length (fresh (keys st) records),
      (List.length st + List.length (fresh (keys st) records))%nat),
     st ++ map entry (fresh (keys st) records)).
Proof.
  unfold Repository.add_jobs. rewrite loop_fresh. cbn [fst snd].
  rewrite length_app, length_map. reflexivity.
Qed.

Lemma add_jobs_app (l1 l2 : list JobOffer) (st : state) :
  snd (add_jobs (l1 ++ l2) st) = snd (add_jobs l2 (snd (add_jobs l1 st))).
Proof.
  unfold Repository.add_jobs. cbn [snd]. rewrite fold_left_app.
  rewrite !loop_fresh. cbn [fst]. reflexivity.
Qed.

(** What [fresh] keeps and what it drops. *)
Lemma fresh_In (seen : list Fingerprint) (records : list JobOffer) (r : JobOffer) :
  In r (fresh seen records) -> In r records /\ ~ In (fingerprint r) seen.
Proof.
  revert seen. induction records as [| x rs IH]; intros seen H.
  - destruct H.
  - cbn [fresh] in H.
    destruct (in_dec fp_eq_dec (fingerprint x) seen) as [Hin | Hout].
    + destruct (IH seen H) as [H1 H2]. split; [right; exact H1 | exact H2].
    + destruct H as [<- | H].
      * split; [left; reflexivity | exact Hout].
      * destruct (IH _ H) as [H1 H2]. split; [right; exact H1 |].
        intros Hs. apply H2. apply in_or_app. left. exact Hs.
Qed.

Lemma fresh_keys (seen : list Fingerprint) (records : list JobOffer) (k : Fingerprint) :
  In k (seen ++ map fingerprint (fresh seen records))
  <-> In k seen \/ In k (map fingerprint records).
Proof.
  revert seen. induction records as [| x rs IH]; intros seen.
  - cbn [fresh map]. rewrite app_nil_r. split; [left; assumption |].
    intros [H | []]. exact H.
  - cbn [fresh].
    destruct (in_dec fp_eq_dec (fingerprint x) seen) as [Hin | Hout].
    + rewrite IH. cbn [map In]. split.
      * intros [H | H]; [left; exact H | right; right; exact H].
      * intros [H | [<- | H]]; [left; exact H | left; exact Hin | right; exact H].
    + cbn [map]. specialize (IH (seen ++ [fingerprint x])).
      rewrite <- app_assoc in IH. cbn [app] in IH. rewrite IH.
      rewrite in_app_iff. cbn [In]. tauto.
Qed.

Lemma fresh_NoDup (seen : list Fingerprint) (records : list JobOffer) :
  NoDup seen -> NoDup (seen ++ map fingerprint (fresh seen records)).
Proof.
  revert seen. induction records as [| x rs IH]; intros seen H.
  - cbn [fresh map]. rewrite app_nil_r. exact H.
  - cbn [fresh].
    destruct (in_dec fp_eq_dec (fingerprint x) seen) as [Hin | Hout].
    + apply IH. exact H.
    + cbn [map]. specialize (IH (seen ++ [fingerprint x])).
      rewrite <- app_assoc in IH. cbn [app] in IH. apply IH.
      apply NoDup_app; [exact H | repeat constructor; intros [] |].
      intros k Hk [<- | []]. exact (Hout Hk).
Qed.

(** A batch whose fingerprints are all known inserts nothing. *)
Lemma fresh_all_seen (seen : list Fingerprint) (records : list JobOffer) :
  (forall r, In r records -> In (fingerprint r) seen) -> fresh seen records = [].
Proof.
  induction records as [| x rs IH]; intros H.
  - reflexivity.
  - cbn [fresh].
    destruct (in_dec fp_eq_dec (fingerprint x) seen) as [Hin | Hout].
    + apply IH. intros r Hr. apply H. right. exact Hr.
    + elim Hout. apply H. left. reflexivity.
Qed.

(** A batch of distinct fingerprints, none of them known, is inserted whole. *)
Lemma fresh_all_new (seen : list Fingerprint) (records : list JobOffer) :
  NoDup (map fingerprint records) ->
  (forall r, In r records -> ~ In (fingerprint r) seen) ->
  fresh seen records = records.
Proof.
  revert seen. induction records as [| x rs IH]; intros seen Hnd Hnew.
  - reflexivity.
  - cbn [fresh]. cbn [map] in Hnd. apply NoDup_cons_iff in Hnd.
    destruct Hnd as [Hx Hnd].
    destruct (in_dec fp_eq_dec (fingerprint x) seen) as [Hin | Hout].
    + elim (Hnew x (or_introl eq_refl) Hin).
    + f_equal. apply IH; [exact Hnd |].
      intros r Hr Hs. apply in_app_or in Hs. destruct Hs as [Hs | [E | []]].
      * exact (Hnew r (or_intror Hr) Hs).
      * apply Hx. rewrite E. apply in_map. exact Hr.
Qed.

Lemma keys_entries (l : list JobOffer) : keys (map entry l) = map fingerprint l.
Proof.
  unfold Repository.keys. rewrite map_map. reflexivity.
Qed.

Lemma lookup_app_l (st st' : state) (k : Fingerprint) (r : JobOffer) :
  lookup st k = Some r -> lookup (st ++ st') k = Some r.
Proof.
  induction st as [| [k0 r0] st IH]; intros H.
  - discriminate H.
  - cbn [app Repository.lookup] in *.
    destruct (fp_eq_dec k0 k); [exact H | exact (IH H)].
Qed.

Lemma loop_skips (l1 l2 : list JobOffer) (r : JobOffer) (st : state) (n : nat) :
  In (fingerprint r) (keys st ++ map fingerprint l1) ->
  fold_left add_job (l1 ++ r :: l2) (st, n) = fold_left add_job (l1 ++ l2) (st, n).
Proof.
  intros H. rewrite !fold_left_app. cbn [fold_left]. f_equal.
  rewrite loop_fresh. apply add_job_known.
  rewrite keys_app, keys_entries. apply fresh_keys.
  apply in_app_or in H. exact H.
Qed.

Lemma well_keyed_jobs (st : state) :
  well_keyed st -> map fingerprint (get_all_jobs st) = keys st.
Proof.
  unfold Repository.get_all_jobs, Repository.keys.
  induction 1 as [| kv st Hkv _ IH]; cbn [map].
  - reflexivity.
  - rewrite IH, Hkv. reflexivity.
Qed.

Lemma keys_NoDup_one_record (st : state) (k : Fingerprint) (r1 r2 : JobOffer) :
  NoDup (keys st) -> In (k, r1) st -> In (k, r2) st -> r1 = r2.
Proof.
  induction st as [| [k0 r0] st IH]; intros Hnd H1 H2.
  - destruct H1.
  - cbn [Repository.keys map fst] in Hnd. apply NoDup_cons_iff in Hnd.
    destruct Hnd as [Hk0 Hnd].
    destruct H1 as [E1 | H1], H2 as [E2 | H2].
    + congruence.
    + exfalso. injection E1 as -> ->. apply Hk0.
      change k with (fst (k, r2)). apply in_map. exact H2.
    + exfalso. injection E2 as -> ->. apply Hk0.
      change k with (fst (k, r1)). apply in_map. exact H1.
    + exact (IH Hnd H1 H2).
Qed.

Lemma well_keyed_entries (l : list JobOffer) : well_keyed (map entry l).
Proof.
  apply Forall_forall. intros kv H.
  apply in_map_iff in H. destruct H as [r [<- _]]. reflexivity.
Qed.

(** A batch of which a first part is already held ends where the whole
    batch ends from the same start. *)
Lemma add_jobs_resubmit (batch : list JobOffer) (k : nat) :
  snd (add_jobs batch (snd (add_jobs (firstn k batch) Repository.empty)))
  = snd (add_jobs batch Repository.empty).
Proof.
  set (st1 := snd (add_jobs (firstn k batch) Repository.empty)).
  assert (Hnoop : snd (add_jobs (firstn k batch) st1) = st1).
  { assert (E1 : st1 = map entry (fresh [] (firstn k batch)))
      by (unfold st1; rewrite add_jobs_fresh; reflexivity).
    rewrite add_jobs_fresh. cbn [snd].
    rewrite (fresh_all_seen (keys st1) (firstn k batch));
      [cbn [map]; apply app_nil_r |].
    intros r Hr. rewrite E1, keys_entries.
    apply (fresh_keys [] (firstn k batch) (fingerprint r)).
    right. apply in_map. exact Hr. }
  transitivity (snd (add_jobs (firstn k batch ++ skipn k batch) st1)).
  { rewrite firstn_skipn. reflexivity. }
  rewrite add_jobs_app, Hnoop. unfold st1.
  rewrite <- add_jobs_app, firstn_skipn. reflexivity.
Qed.

(** *** Claim C1 *)

(** C1. For every input sequence of job records and every repository,
    [add_jobs] goes through the records in order: a record whose fingerprint
    is a key of the mapping is skipped, any other record is appended,
    unchanged, under its fingerprint, and counted. The call returns the
    number of records it inserted and the number of records held after it.
    On the empty sequence it returns [(0, current size)] and changes nothing.
    A record whose fingerprint is already a key, or is the fingerprint of an
    earlier record of the batch, is a no-op: the call counts and holds what it
    would without that record. *)
Theorem add_jobs_inserts_unseen_in_order (records : list JobOffer) (st : state) :
  add_jobs [] st = ((0%nat, List.length st), st)
  /\ (forall r, In (fingerprint r) (keys st) ->
        add_jobs (r :: records) st = add_jobs records st)
  /\ (forall r, ~ In (fingerprint r) (keys st) ->
        add_jobs (r :: records) st
        = let rest := add_jobs records (st ++ [(fingerprint r, r)]) in
          ((S (fst (fst rest)), snd (fst rest)), snd rest))
  /\ snd (add_jobs records st) = st ++ map entry (fresh (keys st) records)
  /\ fst (add_jobs records st)
     = (List.length (fresh (keys st) records),
        List.length (snd (add_jobs records st)))
  /\ (fst (fst (add_jobs records st)) + List.length st
      = snd (fst (add_jobs records st)))%nat
  /\ (forall l1 r l2, records = l1 ++ r :: l2 ->
        In (fingerprint r) (keys st ++ map fingerprint l1) ->
        add_jobs records st = add_jobs (l1 ++ l2) st).
Proof.
  split; [reflexivity |].
  split.
  { intros r H. unfold Repository.add_jobs. cbn [fold_left].
    rewrite (add_job_known st 0 r H). reflexivity. }
  split.
  { intros r H. unfold Repository.add_jobs. cbn [fold_left].
    rewrite (add_job_new st 0 r H). change (entry r) with (fingerprint r, r).
    rewrite !loop_fresh. cbn [fst snd]. reflexivity. }
  split; [rewrite add_jobs_fresh; reflexivity |].
  split.
  { rewrite add_jobs_fresh. cbn [fst snd].
    rewrite length_app, length_map. reflexivity. }
  split; [rewrite add_jobs_fresh; cbn [fst snd]; lia |].
  intros l1 r l2 -> H. unfold Repository.add_jobs.
  rewrite (loop_skips l1 l2 r st 0 H). reflexivity.
Qed.

(** *** Claim C2 *)

(** C2. In every state the repository reaches from the empty one through
    [add_jobs] calls, the keys are pairwise distinct, so that a fingerprint
    has at most one record, every record is filed under its own fingerprint,
    and [get_all_jobs] returns no two records sharing a fingerprint; a later
    [add_jobs] call, whatever its batch, leaves each fingerprint with the
    record it had (first-seen wins) and leads to a state of the same kind. *)
Theorem repository_one_record_per_fingerprint (st : state) :
  reachable st ->
  NoDup (keys st)
  /\ (forall k r1 r2, In (k, r1) st -> In (k, r2) st -> r1 = r2)
  /\ well_keyed st
  /\ NoDup (map fingerprint (get_all_jobs st))
  /\ (forall records k r,
        lookup st k = Some r -> lookup (snd (add_jobs records st)) k = Some r)
  /\ (forall records, reachable (snd (add_jobs records st))).
Proof.
  intros Hreach.
  assert (Hinv : NoDup (keys st) /\ well_keyed st).
  { induction Hreach as [| records st _ [Hnd Hwk]].
    - split; constructor.
    - rewrite add_jobs_fresh. cbn [snd]. split.
      + rewrite keys_app, keys_entries. apply fresh_NoDup. exact Hnd.
      + apply Forall_app. split; [exact Hwk | apply well_keyed_entries]. }
  destruct Hinv as [Hnd Hwk].
  split; [exact Hnd |].
  split; [intros k r1 r2; apply keys_NoDup_one_record; exact Hnd |].
  split; [exact Hwk |].
  split; [rewrite (well_keyed_jobs st Hwk); exact Hnd |].
  split.
  - intros records k r H. rewrite add_jobs_fresh. cbn [snd].
    apply lookup_app_l. exact H.
  - intros records. constructor. exact Hreach.
Qed.

(** *** Claim C5 *)

(** C5. Ingestion is idempotent. A batch of [N] records with pairwise
    distinct fingerprints, ingested into the empty repository, gives
    [(N, N)]; ingested again it gives [(0, N)] and leaves the repository as
    it was; and a batch of which only a first part had been committed,
    submitted again whole, ends in the state of the uninterrupted call. *)
Theorem add_jobs_idempotent (batch : list JobOffer) :
  NoDup (map fingerprint batch) ->
  fst (add_jobs batch Repository.empty) = (List.length batch, List.length batch)
  /\ fst (add_jobs batch (snd (add_jobs batch Repository.empty)))
     = (0%nat, List.length batch)
  /\ snd (add_jobs batch (snd (add_jobs batch Repository.empty)))
     = snd (add_jobs batch Repository.empty)
  /\ (forall k,
        snd (add_jobs batch (snd (add_jobs (firstn k batch) Repository.empty)))
        = snd (add_jobs batch Repository.empty)).
Proof.
  intros Hnd.
  assert (Hfirst : add_jobs batch Repository.empty
                   = ((List.length batch, List.length batch), map entry batch)).
  { rewrite add_jobs_fresh.
    cbn [Repository.empty Repository.keys map app List.length].
    rewrite (fresh_all_new [] batch Hnd) by (intros r _ []).
    reflexivity. }
  assert (Hseen : forall st : state,
             (forall r, In r batch -> In (fingerprint r) (keys st)) ->
             add_jobs batch st = ((0%nat, List.length st), st)).
  { intros st Hst. rewrite add_jobs_fresh.
    rewrite (fresh_all_seen (keys st) batch Hst).
    cbn [List.length map]. rewrite app_nil_r, Nat.add_0_r. reflexivity. }
  rewrite Hfirst. cbn [fst snd].
  split; [reflexivity |].
  rewrite (Hseen (map entry batch))
    by (intros r Hr; rewrite keys_entries; apply in_map; exact Hr).
  cbn [fst snd]. rewrite length_map.
  split; [reflexivity |]. split; [reflexivity |].
  intros k. rewrite (add_jobs_resubmit batch k), Hfirst. reflexivity.
Qed.

End RepositoryFacts.

(** *** The repository of the program on the scenario of the specification *)

Ltac nodup_by_computation :=
  vm_compute;
  repeat (apply NoDup_cons; [cbn [In]; intuition discriminate |]);
  apply NoDup_nil.

Example scenario_first_batch :
  fst (repo_add_jobs [acme_backend] Repository.empty) = (1%nat, 1%nat).
Proof. vm_compute. reflexivity. Qed.

Example scenario_second_batch :
  fst (repo_add_jobs [acme_backend_again; acme_frontend] after_first_batch)
  = (1%nat, 2%nat)
  /\ Repository.get_all_jobs after_second_batch = [acme_backend; acme_frontend].
Proof. split; vm_compute; reflexivity. Qed.

Example scenario_same_batch_twice :
  fst (repo_add_jobs [acme_backend; acme_backend_again] Repository.empty)
  = (1%nat, 1%nat)
  /\ Repository.get_all_jobs
       (snd (repo_add_jobs [acme_backend; acme_backend_again] Repository.empty))
     = [acme_backend].
Proof. split; vm_compute; reflexivity. Qed.

Lemma after_second_batch_reachable :
  Repository.reachable outcome_eq_dec get_hash after_second_batch.
Proof.
  unfold after_second_batch, after_first_batch, repo_add_jobs.
  repeat constructor.
Defined.

Lemma repository_one_record_per_fingerprint_witness :
  Repository.reachable outcome_eq_dec get_hash after_second_batch
  /\ NoDup (Repository.keys after_second_batch)
  /\ NoDup (map get_hash (Repository.get_all_jobs after_second_batch)).
Proof.
  split; [exact after_second_batch_reachable |].
  destruct (repository_one_record_per_fingerprint
              (Py.result Py.str) outcome_eq_dec get_hash
              after_second_batch after_second_batch_reachable)
    as [Hkeys [_ [_ [Hjobs _]]]].
  split; [exact Hkeys | exact Hjobs].
Defined.

Lemma acme_batch_distinct :
  NoDup (map get_hash [acme_backend; acme_frontend]).
Proof. nodup_by_computation. Defined.

Lemma add_jobs_idempotent_witness :
  NoDup (map get_hash [acme_backend; acme_frontend])
  /\ fst (repo_add_jobs [acme_backend; acme_frontend] Repository.empty)
     = (2%nat, 2%nat)
  /\ fst (repo_add_jobs [acme_backend; acme_frontend]
            (snd (repo_add_jobs [acme_backend; acme_frontend] Repository.empty)))
     = (0%nat, 2%nat).
Proof.
  split; [exact acme_batch_distinct |].
  destruct (add_jobs_idempotent (Py.result Py.str) outcome_eq_dec get_hash
              [acme_backend; acme_frontend] acme_batch_distinct)
    as [Hfirst [Hsecond _]].
  split; [exact Hfirst | exact Hsecond].
Defined.

(** ** Collisions *)

Lemma str_eqb_refl (s : Py.str) : Py.str_eqb s s = true.
Proof.
  induction s as [| c s IH]; cbn [Py.str_eqb].
  - reflexivity.
  - rewrite Z.eqb_refl, IH. reflexivity.
Qed.

Lemma value_eqb_refl (v : Py.value) : Py.value_eqb v v = true.
Proof. destruct v as [| s]; [reflexivity | apply str_eqb_refl]. Qed.

Lemma identity_eqb_refl (t : Py.value * Py.value * Py.value) :
  identity_eqb t t = true.
Proof. unfold identity_eqb. rewrite !value_eqb_refl. reflexivity. Qed.

Lemma outcome_eqb_refl (o : Py.result Py.str) : outcome_eqb o o = true.
Proof. destruct o as [s | e]; [apply str_eqb_refl | reflexivity]. Qed.

Lemma distinctb_NoDup {A : Type} (eqb : A -> A -> bool) (l : list A) :
  (forall x, eqb x x = true) -> distinctb eqb l = true -> NoDup l.
Proof.
  intros Hrefl. induction l as [| x l IH]; intros H.
  - constructor.
  - cbn [distinctb] in H. apply andb_prop in H. destruct H as [Hx Hl].
    constructor; [| exact (IH Hl)].
    intros Hin. apply negb_true_iff in Hx.
    assert (E : existsb (eqb x) l = true).
    { apply existsb_exists. exists x. split; [exact Hin | apply Hrefl]. }
    rewrite E in Hx. discriminate Hx.
Qed.

Lemma NoDup_head_twice {A : Type} (x y : A) (l : list A) :
  x = y -> ~ NoDup (x :: y :: l).
Proof.
  intros E H. apply NoDup_cons_iff in H. destruct H as [H _].
  apply H. left. symmetry. exact E.
Qed.

(** [get_hash] reads the identity of an offer and nothing else. *)
Lemma get_hash_of_identity (r1 r2 : JobOffer) :
  identity r1 = identity r2 -> get_hash r1 = get_hash r2.
Proof.
  unfold identity. intros E. injection E as Hc Ht Hl.
  unfold get_hash, content. rewrite Hc, Ht, Hl. reflexivity.
Qed.

Lemma distinct_hashes_distinct_identities (l : list JobOffer) :
  NoDup (map get_hash l) -> NoDup (map identity l).
Proof.
  induction l as [| r l IH]; cbn [map]; intros H.
  - constructor.
  - apply NoDup_cons_iff in H. destruct H as [Hr Hl].
    constructor; [| exact (IH Hl)].
    intros Hin. apply Hr.
    apply in_map_iff in Hin. destruct Hin as [r' [E Hr']].
    apply in_map_iff. exists r'. split; [| exact Hr'].
    apply get_hash_of_identity. exact E.
Qed.

Example get_hash_meta_data :
  get_hash (offer_of "Meta" "DataEngineerIntern" "Paris")
  = Py.Ok (Py.lit "427eb5e5acbf93d593fb755fdab0773b").
Proof. vm_compute. reflexivity. Qed.

(** *** Claim C4 *)

(** C4, as stated, fails: [colliding_offers] is a set of 1,000 records
    whose (company, title, location) triples are pairwise distinct, and its
    first two records, ("Meta", "DataEngineerIntern", "Paris") and
    ("MetaData", "EngineerIntern", "Paris"), have the same fingerprint. *)
Lemma colliding_offers_share_a_fingerprint :
  List.length colliding_offers = 1000%nat
  /\ NoDup (map identity colliding_offers)
  /\ get_hash (offer_of "Meta" "DataEngineerIntern" "Paris")
     = get_hash (offer_of "MetaData" "EngineerIntern" "Paris")
  /\ ~ NoDup (map get_hash colliding_offers).
Proof.
  split; [vm_compute; reflexivity |].
  split.
  { apply (distinctb_NoDup identity_eqb _ identity_eqb_refl).
    vm_compute. reflexivity. }
  split; [vm_compute; reflexivity |].
  apply NoDup_head_twice. vm_compute. reflexivity.
Qed.

(** C4, as amended. The generated set of 1,000 records, ["Company 0"] to
    ["Company 999"] with one title and one location, has pairwise distinct
    (company, title, location) triples, and its 1,000 fingerprints are
    computed and pairwise distinct; and in every set of records, fingerprints
    that are pairwise distinct belong to triples that are pairwise distinct. *)
Theorem generated_fingerprints_distinct :
  List.length (generated_offers 1000) = 1000%nat
  /\ NoDup (map identity (generated_offers 1000))
  /\ Forall (fun r => Py.returned (get_hash r) = true) (generated_offers 1000)
  /\ NoDup (map get_hash (generated_offers 1000))
  /\ (forall l, NoDup (map get_hash l) -> NoDup (map identity l)).
Proof.
  split; [vm_compute; reflexivity |].
  assert (H : NoDup (map get_hash (generated_offers 1000))).
  { apply (distinctb_NoDup outcome_eqb _ outcome_eqb_refl).
    vm_compute. reflexivity. }
  split; [exact (distinct_hashes_distinct_identities _ H) |].
  split.
  { apply Forall_forall. intros r Hr.
    apply in_map_iff in Hr. destruct Hr as [i [<- _]].
    destruct (get_hash_returns (generated_offer i)) as [c [_ E]].
    - unfold identity_text, generated_offer. cbn [company_name title location Py.format].
      apply encodable_app. split; [| repeat constructor].
      apply encodable_app. split; [repeat constructor |].
      unfold Py.str_of_nat, Py.lit.
      induction (list_ascii_of_string (NilEmpty.string_of_uint (Nat.to_uint i)))
        as [| a s IH]; cbn [map]; constructor; [| exact IH].
      unfold Py.is_scalar, Py.is_codepoint, Py.is_surrogate.
      pose proof (N_ascii_bounded a) as Ha.
      apply andb_true_intro. split.
      + apply andb_true_intro. split; [apply Z.leb_le | apply Z.ltb_lt]; lia.
      + apply negb_true_iff. apply andb_false_iff. left. apply Z.leb_gt. lia.
    - rewrite E. reflexivity. }
  split; [exact H | exact distinct_hashes_distinct_identities].
Qed.

(** ** The listing *)

Import MarkdownExport.

(** *** The order of strings *)

Lemma str_ltb_irrefl (a : Py.str) : str_ltb a a = false.
Proof.
  induction a as [| x a IH]; cbn [str_ltb].
  - reflexivity.
  - rewrite Z.ltb_irrefl, Z.eqb_refl, IH. reflexivity.
Qed.

Lemma str_ltb_cons (x y : Z) (a b : Py.str) :
  str_ltb (x :: a) (y :: b) = true <-> x < y \/ (x = y /\ str_ltb a b = true).
Proof.
  cbn [str_ltb]. rewrite orb_true_iff, andb_true_iff, Z.ltb_lt, Z.eqb_eq.
  reflexivity.
Qed.

Lemma str_ltb_cons_false (x y : Z) (a b : Py.str) :
  str_ltb (x :: a) (y :: b) = false <-> y < x \/ (x = y /\ str_ltb a b = false).
Proof.
  rewrite <- not_true_iff_false, str_ltb_cons.
  destruct (str_ltb a b); split; intros H.
  - left. destruct (Z.lt_trichotomy x y) as [L | [E | G]]; [| | exact G];
      elim H; [left; exact L | right; split; [exact E | reflexivity]].
  - intros [L | [E _]]; destruct H as [G | [E' D]]; try lia; discriminate D.
  - destruct (Z.lt_trichotomy x y) as [L | [E | G]].
    + elim H. left. exact L.
    + right. split; [exact E | reflexivity].
    + left. exact G.
  - intros [L | [E D]]; [| discriminate D].
    destruct H as [G | [E' _]]; lia.
Qed.

Lemma str_ltb_asym (a b : Py.str) : str_ltb a b = true -> str_ltb b a = false.
Proof.
  revert b. induction a as [| x a IH]; intros [| y b] H.
  - reflexivity.
  - reflexivity.
  - discriminate H.
  - apply str_ltb_cons in H. apply str_ltb_cons_false.
    destruct H as [L | [E H]]; [left; exact L |].
    right. split; [symmetry; exact E | exact (IH b H)].
Qed.

(** [a <= b] and [b <= c] give [a <= c]. *)
Lemma str_leb_trans (a b c : Py.str) :
  str_ltb b a = false -> str_ltb c b = false -> str_ltb c a = false.
Proof.
  revert b c. induction a as [| x a IH]; intros b c Hab Hbc.
  - destruct c as [| z c]; reflexivity.
  - destruct b as [| y b]; [discriminate Hab |].
    destruct c as [| z c]; [discriminate Hbc |].
    apply str_ltb_cons_false in Hab. apply str_ltb_cons_false in Hbc.
    apply str_ltb_cons_false.
    destruct Hab as [L1 | [E1 H1]], Hbc as [L2 | [E2 H2]].
    + left. lia.
    + left. lia.
    + left. lia.
    + right. split; [lia | exact (IH b c H1 H2)].
Qed.

(** *** [sorted] on string keys *)

Lemma StronglySorted_app {B : Type} (R : B -> B -> Prop) (l1 l2 : list B) :
  Sorted.StronglySorted R l1 -> Sorted.StronglySorted R l2 ->
  (forall x y, In x l1 -> In y l2 -> R x y) ->
  Sorted.StronglySorted R (l1 ++ l2).
Proof.
  induction l1 as [| a l1 IH]; intros H1 H2 H12.
  - exact H2.
  - cbn [app]. inversion H1 as [| a' l1' Hs Ha]; subst.
    constructor.
    + apply IH; [exact Hs | exact H2 |].
      intros x y Hx Hy. apply H12; [right; exact Hx | exact Hy].
    + apply Forall_app. split; [exact Ha |].
      apply Forall_forall. intros y Hy. apply H12; [left; reflexivity | exact Hy].
Qed.

Lemma StronglySorted_rev {B : Type} (R : B -> B -> Prop) (l : list B) :
  Sorted.StronglySorted R l -> Sorted.StronglySorted (fun a b => R b a) (rev l).
Proof.
  induction 1 as [| a l _ IH Ha]; cbn [rev].
  - constructor.
  - apply StronglySorted_app.
    + exact IH.
    + repeat constructor.
    + intros x y Hx [<- | []]. apply in_rev in Hx.
      exact (proj1 (Forall_forall _ _) Ha x Hx).
Qed.

Lemma StronglySorted_map {B C : Type} (R : B -> B -> Prop) (R' : C -> C -> Prop)
    (P : B -> Prop) (f : B -> C) (l : list B) :
  (forall a b, P a -> P b -> R a b -> R' (f a) (f b)) ->
  Forall P l -> Sorted.StronglySorted R l -> Sorted.StronglySorted R' (map f l).
Proof.
  intros HR HP HS. induction HS as [| a l _ IH Ha]; cbn [map].
  - constructor.
  - inversion HP as [| a' l' Pa Pl]; subst.
    constructor; [exact (IH Pl) |].
    apply Forall_forall. intros c Hc.
    apply in_map_iff in Hc. destruct Hc as [b [<- Hb]].
    apply HR; [exact Pa | exact (proj1 (Forall_forall _ _) Pl b Hb) |].
    exact (proj1 (Forall_forall _ _) Ha b Hb).
Qed.

Section SortedFacts.

Variable A : Type.
Variable key : A -> Py.result Py.value.

Local Abbreviation str_keyed :=
  (fun kx : keyed A => exists s, fst kx = Py.VStr s).

Lemma key_le_trans (a b c : keyed A) : key_le a b -> key_le b c -> key_le a c.
Proof.
  intros [s [t [Ha [Hb Hst]]]] [t' [u [Hb' [Hc Htu]]]].
  rewrite Hb in Hb'. injection Hb' as <-.
  exists s, u. split; [exact Ha |]. split; [exact Hc |].
  exact (str_leb_trans s t u Hst Htu).
Qed.

Lemma compute_keys_str (l : list A) :
  Forall (fun x => exists s, key x = Py.Ok (Py.VStr s)) l ->
  exists ks, compute_keys key l = Py.Ok ks
             /\ map snd ks = l
             /\ Forall (keyed_by_str key) ks.
Proof.
  induction 1 as [| x l [s Hx] _ [ks [Hks [Hsnd Hall]]]].
  - exists []. repeat split. constructor.
  - exists ((Py.VStr s, x) :: ks). cbn [compute_keys].
    rewrite Hx, Hks. cbn [Py.bind map snd].
    split; [reflexivity |]. split; [rewrite Hsnd; reflexivity |].
    constructor; [| exact Hall].
    split; [exact Hx | exists s; reflexivity].
Qed.

Lemma insert_sorted (x : keyed A) (l : list (keyed A)) :
  str_keyed x -> Forall str_keyed l -> Sorted.StronglySorted key_le l ->
  exists r, insert x l = Py.Ok r
            /\ Permutation (x :: l) r
            /\ Sorted.StronglySorted key_le r.
Proof.
  intros [sx Hx]. induction l as [| y l IH]; intros Hl Hs.
  - exists [x]. split; [reflexivity |]. split; [apply Permutation_refl |].
    repeat constructor.
  - inversion Hl as [| y' l' [sy Hy] Hl']; subst.
    inversion Hs as [| y' l' Hs' Hyl]; subst.
    cbn [insert]. rewrite Hx, Hy. cbn [lt Py.bind].
    destruct (str_ltb sy sx) eqn:E.
    + destruct (IH Hl' Hs') as [r [Hr [Hperm Hsorted]]].
      exists (y :: r). rewrite Hr. cbn [Py.bind].
      split; [reflexivity |].
      split.
      { apply Permutation_trans with (y :: x :: l).
        - apply perm_swap.
        - apply perm_skip. exact Hperm. }
      constructor; [exact Hsorted |].
      apply (Permutation_Forall Hperm). constructor; [| exact Hyl].
      exists sy, sx. split; [exact Hy |]. split; [exact Hx |].
      exact (str_ltb_asym sy sx E).
    + exists (x :: y :: l). split; [reflexivity |].
      split; [apply Permutation_refl |].
      assert (Hxy : key_le x y).
      { exists sx, sy. split; [exact Hx |]. split; [exact Hy | exact E]. }
      constructor; [exact Hs |].
      constructor; [exact Hxy |].
      apply Forall_forall. intros z Hz.
      apply (key_le_trans x y z Hxy).
      exact (proj1 (Forall_forall _ _) Hyl z Hz).
Qed.

Lemma sort_keyed_sorted (l : list (keyed A)) :
  Forall str_keyed l ->
  exists r, sort_keyed l = Py.Ok r
            /\ Permutation l r
            /\ Sorted.StronglySorted key_le r.
Proof.
  induction 1 as [| x l Hx Hl [s [Hs [Hperm Hsorted]]]].
  - exists []. split; [reflexivity |].
    split; [apply Permutation_refl | constructor].
  - cbn [sort_keyed]. rewrite Hs. cbn [Py.bind].
    destruct (insert_sorted x s Hx (Permutation_Forall Hperm Hl) Hsorted)
      as [r [Hr [Hperm' Hsorted']]].
    exists r. split; [exact Hr |]. split; [| exact Hsorted'].
    apply Permutation_trans with (x :: s); [| exact Hperm'].
    apply perm_skip. exact Hperm.
Qed.

(** [sorted(l, key=key, reverse=True)] on string keys: it returns, the
    items rearranged, each key at least the keys after it. *)
Lemma sorted_reverse_descending (l : list A) :
  Forall (fun x => exists s, key x = Py.Ok (Py.VStr s)) l ->
  exists r, sorted l key true = Py.Ok r
            /\ Permutation l r
            /\ Sorted.StronglySorted (key_ge key) r.
Proof.
  intros H.
  destruct (compute_keys_str l H) as [ks [Hks [Hsnd Hkeyed]]].
  assert (Hstr : Forall str_keyed (rev ks)).
  { apply Forall_rev. apply (Forall_impl _ (fun kx Hkx => proj2 Hkx) Hkeyed). }
  destruct (sort_keyed_sorted (rev ks) Hstr) as [s [Hs [Hperm Hsorted]]].
  exists (map snd (rev s)). unfold sorted. rewrite Hks. cbn [Py.bind].
  rewrite Hs. cbn [Py.bind].
  split; [reflexivity |].
  assert (Hperm' : Permutation ks (rev s)).
  { apply Permutation_trans with (rev ks); [apply Permutation_rev |].
    apply Permutation_trans with s; [exact Hperm | apply Permutation_rev]. }
  split.
  - rewrite <- Hsnd. apply Permutation_map. exact Hperm'.
  - apply (StronglySorted_map (fun a b => key_le b a) (key_ge key)
             (keyed_by_str key) snd).
    + intros a b [Ka _] [Kb _] [sb [sa [Hb [Ha Hlt]]]].
      exists sa, sb. rewrite Ka, Kb, Ha, Hb.
      split; [reflexivity |]. split; [reflexivity | exact Hlt].
    + exact (Permutation_Forall Hperm' Hkeyed).
    + apply StronglySorted_rev. exact Hsorted.
Qed.

(** [<] raises nothing but [TypeError], and so does the sort. *)
Lemma lt_raises (a b : Py.value) (e : Py.exn) :
  lt a b = Py.Raise e -> e = Py.TypeError.
Proof.
  destruct a as [| s], b as [| t]; cbn [lt]; intros H;
    try discriminate H; injection H as <-; reflexivity.
Qed.

Lemma insert_raises (x : keyed A) (l : list (keyed A)) (e : Py.exn) :
  insert x l = Py.Raise e -> e = Py.TypeError.
Proof.
  induction l as [| y l IH]; cbn [insert]; intros H.
  - discriminate H.
  - destruct (lt (fst y) (fst x)) as [b | e'] eqn:E.
    + cbn [Py.bind] in H. destruct b; [| discriminate H].
      destruct (insert x l) as [r | e'']; [discriminate H |].
      cbn [Py.bind] in H. injection H as <-. apply IH. reflexivity.
    + cbn [Py.bind] in H. injection H as <-. exact (lt_raises _ _ _ E).
Qed.

Lemma sort_keyed_raises (l : list (keyed A)) (e : Py.exn) :
  sort_keyed l = Py.Raise e -> e = Py.TypeError.
Proof.
  revert e. induction l as [| x l IH]; cbn [sort_keyed]; intros e H.
  - discriminate H.
  - destruct (sort_keyed l) as [s | e'].
    + cbn [Py.bind] in H. exact (insert_raises x s e H).
    + cbn [Py.bind] in H. injection H as <-. apply IH. reflexivity.
Qed.

Lemma insert_length (x : keyed A) (l r : list (keyed A)) :
  insert x l = Py.Ok r -> List.length r = S (List.length l).
Proof.
  revert r. induction l as [| y l IH]; cbn [insert]; intros r H.
  - injection H as <-. reflexivity.
  - apply bind_ok in H. destruct H as [b [_ H]]. destruct b.
    + apply bind_ok in H. destruct H as [r' [Hr' H]]. injection H as <-.
      cbn [List.length]. rewrite (IH r' Hr'). reflexivity.
    + injection H as <-. reflexivity.
Qed.

Lemma sort_keyed_length (l s : list (keyed A)) :
  sort_keyed l = Py.Ok s -> List.length s = List.length l.
Proof.
  revert s. induction l as [| x l IH]; cbn [sort_keyed]; intros s H.
  - injection H as <-. reflexivity.
  - apply bind_ok in H. destruct H as [s' [Hs' H]].
    rewrite (insert_length x s' s H), (IH s' Hs'). reflexivity.
Qed.

(** An item sorted without a raise is one whose key [<] accepts, as soon
    as there is another item. *)
Lemma insert_None_raises (x : keyed A) (l : list (keyed A)) :
  l <> [] -> fst x = Py.VNone -> insert x l = Py.Raise Py.TypeError.
Proof.
  intros Hl Hx. destruct l as [| y l]; [elim Hl; reflexivity |].
  cbn [insert]. rewrite Hx. destruct (fst y); reflexivity.
Qed.

Lemma sort_keyed_keeps_None (l s : list (keyed A)) :
  sort_keyed l = Py.Ok s ->
  Exists (fun kx => fst kx = Py.VNone) l -> (List.length l <= 1)%nat.
Proof.
  revert s. induction l as [| x l IH]; intros s H Hex.
  - cbn [List.length]. lia.
  - cbn [sort_keyed] in H. apply bind_ok in H. destruct H as [s' [Hs' H]].
    pose proof (sort_keyed_length l s' Hs') as Hlen.
    destruct l as [| y l].
    + cbn [List.length]. lia.
    + exfalso. destruct s' as [| z s']; [discriminate Hlen |].
      apply Exists_cons in Hex. destruct Hex as [Hx | Hex].
      * rewrite (insert_None_raises x (z :: s')) in H by (discriminate || exact Hx).
        discriminate H.
      * pose proof (IH (z :: s') Hs' Hex) as Hle.
        destruct l as [| y' l]; [| cbn [List.length] in Hle; lia].
        cbn [sort_keyed insert Py.bind] in Hs'. injection Hs' as <- <-.
        apply Exists_cons in Hex. destruct Hex as [Hy | Hex]; [| inversion Hex].
        cbn [insert] in H. rewrite Hy in H. discriminate H.
Qed.

(** [sorted] of two or more items raises [TypeError] when the key of one
    of them is [None]. *)
Lemma sorted_None_raises (l : list A) (reverse : bool) :
  (2 <= List.length l)%nat ->
  Forall (fun x => Py.returned (key x) = true) l ->
  Exists (fun x => key x = Py.Ok Py.VNone) l ->
  sorted l key reverse = Py.Raise Py.TypeError.
Proof.
  intros Hlen Hall Hex.
  assert (Hks : exists ks, compute_keys key l = Py.Ok ks
                           /\ List.length ks = List.length l
                           /\ Exists (fun kx => fst kx = Py.VNone) ks).
  { clear Hlen. induction Hall as [| x l Hx Hall IH].
    - inversion Hex.
    - destruct (key x) as [k | e] eqn:Ek; [| discriminate Hx].
      apply Exists_cons in Hex.
      assert (Hrest : exists ks, compute_keys key l = Py.Ok ks
                                 /\ List.length ks = List.length l).
      { clear IH Hex. induction Hall as [| y l Hy _ [ks [Hks Hl]]].
        - exists []. split; reflexivity.
        - destruct (key y) as [ky | e] eqn:Ey; [| discriminate Hy].
          exists ((ky, y) :: ks). cbn [compute_keys]. rewrite Ey, Hks.
          cbn [Py.bind List.length]. rewrite Hl. split; reflexivity. }
      destruct Hrest as [ks [Hks Hl]].
      exists ((k, x) :: ks). cbn [compute_keys]. rewrite Ek, Hks.
      cbn [Py.bind List.length]. rewrite Hl.
      split; [reflexivity |]. split; [reflexivity |].
      destruct Hex as [Hx' | Hex].
      + apply Exists_cons_hd. cbn [fst]. congruence.
      + apply Exists_cons_tl. destruct (IH Hex) as [ks' [Hks' [_ Hex']]].
        rewrite Hks in Hks'. injection Hks' as <-. exact Hex'. }
  destruct Hks as [ks [Hks [Hl HexNone]]].
  unfold sorted. rewrite Hks. cbn [Py.bind].
  assert (Hraise : forall ks', List.length ks' = List.length l ->
             Exists (fun kx : keyed A => fst kx = Py.VNone) ks' ->
             sort_keyed ks' = Py.Raise Py.TypeError).
  { intros ks' Hl' Hex'. destruct (sort_keyed ks') as [s | e] eqn:E.
    - pose proof (sort_keyed_keeps_None ks' s E Hex'). lia.
    - f_equal. exact (sort_keyed_raises ks' e E). }
  destruct reverse.
  - rewrite (Hraise (rev ks)); [reflexivity | rewrite length_rev; exact Hl |].
    apply Exists_exists. apply Exists_exists in HexNone.
    destruct HexNone as [kx [Hin Hk]]. exists kx.
    split; [apply in_rev; rewrite rev_involutive; exact Hin | exact Hk].
  - rewrite (Hraise ks Hl HexNone). reflexivity.
Qed.

End SortedFacts.

(** *** The document *)


(** The loop appends the sections of the jobs, in their order. *)
Lemma sections_concat (jobs : list dict) (text : Py.str) :
  Forall (fun job => Py.returned (section job) = true) jobs ->
  exists texts, Forall2 (fun job t => section job = Py.Ok t) jobs texts
                /\ sections text jobs = Py.Ok (text ++ List.concat texts).
Proof.
  intros H. revert text. induction H as [| job jobs Hjob _ IH]; intros text.
  - exists []. split; [constructor |]. cbn [sections List.concat].
    rewrite app_nil_r. reflexivity.
  - destruct (section job) as [t | e] eqn:E; [| discriminate Hjob].
    destruct (IH (text ++ t)) as [texts [Hall Hs]].
    exists (t :: texts). split; [constructor; assumption |].
    cbn [sections List.concat]. rewrite E. cbn [Py.bind].
    rewrite Hs, <- app_assoc. reflexivity.
Qed.

(** On jobs that all carry a string as posted date and the keys of a
    section, the text is the header followed by one section per job, the
    jobs rearranged newest first. *)
Lemma render_newest_first (jobs : list dict) :
  Forall listable jobs ->
  exists ordered texts,
    Permutation jobs ordered
    /\ Sorted.StronglySorted not_posted_before ordered
    /\ Forall2 (fun job t => section job = Py.Ok t) ordered texts
    /\ render jobs = Py.Ok (header (List.length jobs) ++ List.concat texts).
Proof.
  intros H.
  destruct (sorted_reverse_descending dict posted jobs) as [ordered [Hs [Hperm Hdesc]]].
  { exact (Forall_impl _ (fun job Hjob => proj1 Hjob) H). }
  destruct (sections_concat ordered (header (List.length jobs)))
    as [texts [Htexts Hsections]].
  { apply (Permutation_Forall Hperm).
    exact (Forall_impl _ (fun job Hjob => proj2 Hjob) H). }
  exists ordered, texts.
  split; [exact Hperm |]. split; [exact Hdesc |]. split; [exact Htexts |].
  unfold render. change (fun x : dict => getitem x (Py.lit "posted_date")) with posted.
  rewrite Hs. cbn [Py.bind]. exact Hsections.
Qed.

(** Two or more jobs, one of them with the posted date [None]: no text. *)
Lemma render_undated_raises (jobs : list dict) :
  (2 <= List.length jobs)%nat ->
  Forall (fun job => Py.returned (posted job) = true) jobs ->
  Exists (fun job => posted job = Py.Ok Py.VNone) jobs ->
  render jobs = Py.Raise Py.TypeError.
Proof.
  intros Hlen Hall Hex. unfold render.
  change (fun x : dict => getitem x (Py.lit "posted_date")) with posted.
  rewrite (sorted_None_raises dict posted jobs true Hlen Hall Hex).
  reflexivity.
Qed.


(** The listing of the two offers of the scenario: the newer one first. *)
Example render_scenario :
  render [to acme_backend; to acme_frontend]
  = Py.Ok (Py.lit "# Summer 2025 internship opportunities

This list gets updated daily.

Posted on refers to the date when the offer was posted on LinkedIn.

## Available positions (2 offers)

### Acme
- **Position:** Frontend Intern
- **Location:** NYC
- **Posted on:** 2025-05-02
- [Apply here](https://example.com/C)

### Acme
- **Position:** Backend Intern
- **Location:** NYC
- **Posted on:** 2025-05-01
- [Apply here](https://example.com/A)

").
Proof. vm_compute. reflexivity. Qed.

(** Jobs posted on one day keep the order they came in, after the newer
    ones and before the older ones. *)
Example sorted_keeps_ties :
  sorted [to acme_backend; to acme_backend_again; to acme_frontend]
    posted true
  = Py.Ok [to acme_backend_again; to acme_frontend; to acme_backend]
  /\ sorted [to acme_frontend; to acme_backend; to acme_backend_again]
       posted true
     = Py.Ok [to acme_frontend; to acme_backend_again; to acme_backend].
Proof. split; vm_compute; reflexivity. Qed.

(** A single undated job is listed: nothing is compared. *)
Example render_one_undated :
  Py.returned (render [to undated_offer]) = true.
Proof. vm_compute. reflexivity. Qed.

(** *** Claim C8 *)

(** C8 at an input the scraper produces: two job records, one of them
    without posted date. [sorted] compares [None] with a string and raises
    [TypeError]; [export_to_markdown] emits nothing, the files are left as
    they were, whichever of the two jobs comes first. The claim asks for the
    jobs listed newest first, one section each. *)
Theorem export_to_markdown_undated_raises :
  render [to acme_backend; to undated_offer] = Py.Raise Py.TypeError
  /\ render [to undated_offer; to acme_backend] = Py.Raise Py.TypeError
  /\ export_to_markdown [to acme_backend; to undated_offer]
       default_output_file no_files
     = (no_files, Py.Raise Py.TypeError)
  /\ posted (to undated_offer) = Py.Ok Py.VNone
  /\ Py.returned (section (to undated_offer)) = true.
Proof.
  repeat split; vm_compute; reflexivity.
Qed.

(* ===================================================================== *)
(** * Part III: further properties of the code *)
(* ===================================================================== *)

(** ** [get_hash] and [to] *)


(** X2. The fingerprint does not see where one field ends and the next
    begins: text moved from the end of the company name to the start of the
    title, or from the end of the title to the start of the location, leaves
    the fingerprint as it was, whatever the other fields. *)
Theorem get_hash_ignores_field_boundaries
    (company position place moved : Py.str)
    (posted1 about1 link1 posted2 about2 link2 : Py.value) :
  get_hash (mkJobOffer (Py.VStr position) (Py.VStr (company ++ moved))
              (Py.VStr place) posted1 about1 link1)
  = get_hash (mkJobOffer (Py.VStr (moved ++ position)) (Py.VStr company)
                (Py.VStr place) posted2 about2 link2)
  /\ get_hash (mkJobOffer (Py.VStr (position ++ moved)) (Py.VStr company)
                 (Py.VStr place) posted1 about1 link1)
     = get_hash (mkJobOffer (Py.VStr position) (Py.VStr company)
                   (Py.VStr (moved ++ place)) posted2 about2 link2).
Proof.
  unfold get_hash, content. cbn [company_name title location Py.format].
  split; rewrite <- !app_assoc; reflexivity.
Qed.

Lemma str_eqb_eq (a b : Py.str) : Py.str_eqb a b = true <-> a = b.
Proof.
  revert b. induction a as [| x a IH]; intros [| y b]; cbn [Py.str_eqb].
  - split; reflexivity.
  - split; discriminate.
  - split; discriminate.
  - destruct (Z.eqb_spec x y) as [-> | N].
    + rewrite IH. split; [intros ->; reflexivity | intros [= ->]; reflexivity].
    + split; [discriminate | intros [= E _]; contradiction].
Qed.

Lemma str_eqb_neq (a b : Py.str) : Py.str_eqb a b = false <-> a <> b.
Proof.
  rewrite <- str_eqb_eq. destruct (Py.str_eqb a b); split; intros H.
  - discriminate H.
  - elim H. reflexivity.
  - discriminate.
  - reflexivity.
Qed.

(** [d[k]] returns the value of the first item with key [k] and raises
    [KeyError] when there is none. *)
Lemma getitem_KeyError (d : dict) (k : Py.str) :
  getitem d k = Py.Raise Py.KeyError <-> ~ In k (Offers.keys d).
Proof.
  induction d as [| [k' v] d IH]; cbn [getitem Offers.keys map fst In].
  - split; [intros _ [] | reflexivity].
  - destruct (Py.str_eqb k' k) eqn:E.
    + apply str_eqb_eq in E. split; [discriminate |].
      intros H. elim H. left. exact E.
    + apply str_eqb_neq in E. rewrite IH. unfold Offers.keys. tauto.
Qed.

Lemma getitem_raises (d : dict) (k : Py.str) (e : Py.exn) :
  getitem d k = Py.Raise e -> e = Py.KeyError.
Proof.
  induction d as [| [k' v] d IH]; cbn [getitem]; intros H.
  - injection H as <-. reflexivity.
  - destruct (Py.str_eqb k' k); [discriminate H | exact (IH H)].
Qed.

(** X3. The mapping [to] returns keeps the whole offer: two offers with the
    same mapping are the same offer; and subscripting it raises [KeyError]
    exactly on the keys that are not among the six field names. *)
Theorem to_keeps_the_offer (r1 r2 : JobOffer) :
  (to r1 = to r2 <-> r1 = r2)
  /\ (forall k,
        getitem (to r1) k = Py.Raise Py.KeyError
        <-> ~ In k [Py.lit "title"; Py.lit "company_name"; Py.lit "location";
                    Py.lit "posted_date"; Py.lit "description"; Py.lit "url"])
  /\ (forall k e, getitem (to r1) k = Py.Raise e -> e = Py.KeyError).
Proof.
  split; [split |].
  - intros H. change (to r1) with (items r1) in H.
    change (to r2) with (items r2) in H. unfold items in H.
    destruct r1, r2. cbn in H. injection H as -> -> -> -> -> ->. reflexivity.
  - intros ->. reflexivity.
  - split; [exact (fun k => getitem_KeyError (to r1) k) |].
    intros k e. apply getitem_raises.
Qed.

(** ** [export_to_markdown] *)

Lemma posted_to (r : JobOffer) : posted (to r) = Py.Ok (posted_date r).
Proof. reflexivity. Qed.

Lemma section_to (r : JobOffer) : section (to r) = Py.Ok (offer_section r).
Proof. reflexivity. Qed.

Lemma StronglySorted_unmap {B C : Type} (R : C -> C -> Prop) (f : B -> C)
    (l : list B) :
  Sorted.StronglySorted R (map f l) ->
  Sorted.StronglySorted (fun a b => R (f a) (f b)) l.
Proof.
  induction l as [| a l IH]; cbn [map]; intros H.
  - constructor.
  - inversion H as [| a' l' Hs Ha]; subst.
    constructor; [exact (IH Hs) |].
    apply Forall_forall. intros b Hb.
    exact (proj1 (Forall_forall _ _) Ha (f b) (in_map f l b Hb)).
Qed.

Lemma StronglySorted_weaken {B : Type} (R R' : B -> B -> Prop) (l : list B) :
  (forall a b, R a b -> R' a b) ->
  Sorted.StronglySorted R l -> Sorted.StronglySorted R' l.
Proof.
  intros HR. induction 1 as [| a l _ IH Ha]; constructor.
  - exact IH.
  - exact (Forall_impl _ (HR a) Ha).
Qed.

Lemma sections_of_offers (l : list JobOffer) (texts : list Py.str) :
  Forall2 (fun job t => section job = Py.Ok t) (map to l) texts ->
  texts = map offer_section l.
Proof.
  revert texts. induction l as [| r l IH]; cbn [map]; intros texts H.
  - inversion H. reflexivity.
  - inversion H as [| job t jobs ts Hjob Hrest]; subst.
    rewrite section_to in Hjob. injection Hjob as <-.
    rewrite (IH ts Hrest). reflexivity.
Qed.

Lemma not_posted_before_to (a b : JobOffer) :
  not_posted_before (to a) (to b) -> offer_not_posted_before a b.
Proof.
  intros [s [t [Ha [Hb Hlt]]]]. rewrite posted_to in Ha, Hb.
  injection Ha as Ha. injection Hb as Hb.
  exists s, t. split; [exact Ha |]. split; [exact Hb | exact Hlt].
Qed.

(** X4. Offers that all carry a string as posted date, serialised with [to]
    and handed to the renderer: the text is the header with the number of
    offers, followed by one section per offer and nothing else; the sections
    come newest first; a section shows company, title, location, posted date
    and link of its offer, and never the description. *)
Theorem render_offers_newest_first (offers : list JobOffer) :
  Forall (fun r => exists s, posted_date r = Py.VStr s) offers ->
  exists ordered,
    Permutation offers ordered
    /\ Sorted.StronglySorted offer_not_posted_before ordered
    /\ render (map to offers)
       = Py.Ok (header (List.length offers)
                ++ List.concat (map offer_section ordered)).
Proof.
  intros H.
  destruct (render_newest_first (map to offers))
    as [dicts [texts [Hp [Hs [Ht Hr]]]]].
  { apply Forall_forall. intros job Hjob.
    apply in_map_iff in Hjob. destruct Hjob as [r [<- Hr]].
    destruct (proj1 (Forall_forall _ _) H r Hr) as [s Hs].
    split; [exists s; rewrite posted_to, Hs; reflexivity | reflexivity]. }
  apply Permutation_sym, Permutation_map_inv in Hp.
  destruct Hp as [ordered [-> Hp]].
  exists ordered. split; [exact Hp |].
  split.
  - apply StronglySorted_unmap in Hs.
    exact (StronglySorted_weaken _ _ _ not_posted_before_to Hs).
  - rewrite Hr, length_map, (sections_of_offers ordered texts Ht). reflexivity.
Qed.

Lemma render_offers_newest_first_witness :
  Forall (fun r => exists s, posted_date r = Py.VStr s)
    [acme_backend; acme_frontend]
  /\ exists ordered,
       Permutation [acme_backend; acme_frontend] ordered
       /\ Sorted.StronglySorted offer_not_posted_before ordered
       /\ render (map to [acme_backend; acme_frontend])
          = Py.Ok (header 2 ++ List.concat (map offer_section ordered)).
Proof.
  assert (H : Forall (fun r => exists s, posted_date r = Py.VStr s)
                [acme_backend; acme_frontend]).
  { repeat constructor; eexists; reflexivity. }
  split; [exact H |].
  exact (render_offers_newest_first [acme_backend; acme_frontend] H).
Defined.

(** *** The order of the listing among jobs of one day *)

Section SortedStable.

Variable A : Type.
Variable key : A -> Py.result Py.value.

Local Abbreviation str_keyed :=
  (fun kx : keyed A => exists s, fst kx = Py.VStr s).

Lemma insert_keeps_day (day : Py.str) (x : keyed A) (l r : list (keyed A)) :
  str_keyed x -> Forall str_keyed l -> insert x l = Py.Ok r ->
  filter (keyed_is day) r
  = filter (keyed_is day) (x :: l).
Proof.
  intros [sx Hx]. revert r. induction l as [| y l IH]; intros r Hl H.
  - injection H as <-. reflexivity.
  - inversion Hl as [| y' l' [sy Hy] Hl']; subst.
    cbn [insert] in H. rewrite Hx, Hy in H. cbn [lt Py.bind] in H.
    destruct (str_ltb sy sx) eqn:E.
    + apply bind_ok in H. destruct H as [r' [Hr' H]]. injection H as <-.
      specialize (IH r' Hl' Hr').
      cbn [filter] in *. rewrite IH. unfold keyed_is. rewrite Hx, Hy.
      cbn [is_the_str].
      destruct (Py.str_eqb sx day) eqn:Ex; [| reflexivity].
      destruct (Py.str_eqb sy day) eqn:Ey; [| reflexivity].
      apply str_eqb_eq in Ex, Ey. subst sx sy.
      rewrite str_ltb_irrefl in E. discriminate E.
    + injection H as <-. reflexivity.
Qed.

Lemma sort_keyed_keeps_day (day : Py.str) (l s : list (keyed A)) :
  Forall str_keyed l -> sort_keyed l = Py.Ok s ->
  filter (keyed_is day) s
  = filter (keyed_is day) l.
Proof.
  intros Hl. revert s. induction Hl as [| x l Hx Hl IH]; intros s H.
  - injection H as <-. reflexivity.
  - cbn [sort_keyed] in H. apply bind_ok in H. destruct H as [s' [Hs' H]].
    destruct (sort_keyed_sorted A l Hl) as [s'' [Hs'' [Hperm _]]].
    rewrite Hs' in Hs''. injection Hs'' as <-.
    rewrite (insert_keeps_day day x s' s Hx (Permutation_Forall Hperm Hl) H).
    cbn [filter]. rewrite (IH s' Hs'). reflexivity.
Qed.

Lemma filter_keyed (day : Py.str) (ks : list (keyed A)) :
  Forall (keyed_by_str key) ks ->
  filter (key_is key day) (map snd ks)
  = map snd (filter (keyed_is day) ks).
Proof.
  induction 1 as [| kx ks [Hk _] _ IH]; cbn [map filter].
  - reflexivity.
  - rewrite IH.
    assert (E : key_is key day (snd kx) = keyed_is day kx)
      by (unfold key_is, keyed_is; rewrite Hk; reflexivity).
    rewrite E. destruct (keyed_is day kx); reflexivity.
Qed.

(** [sorted(l, key=key, reverse=True)] is stable: the items of one key keep
    the order they had in [l]. *)
Lemma sorted_reverse_stable (l r : list A) (day : Py.str) :
  Forall (fun x => exists s, key x = Py.Ok (Py.VStr s)) l ->
  sorted l key true = Py.Ok r ->
  filter (key_is key day) r
  = filter (key_is key day) l.
Proof.
  intros Hl H.
  destruct (compute_keys_str A key l Hl) as [ks [Hks [Hsnd Hkeyed]]].
  unfold sorted in H. rewrite Hks in H. cbn [Py.bind] in H.
  apply bind_ok in H. destruct H as [s [Hs H]]. injection H as <-.
  assert (Hstr : Forall str_keyed (rev ks)).
  { apply Forall_rev. exact (Forall_impl _ (fun kx Hkx => proj2 Hkx) Hkeyed). }
  destruct (sort_keyed_sorted A (rev ks) Hstr) as [s' [Hs' [Hperm _]]].
  rewrite Hs in Hs'. injection Hs' as <-.
  rewrite filter_keyed.
  - rewrite filter_rev, (sort_keyed_keeps_day day (rev ks) s Hstr Hs).
    rewrite filter_rev, rev_involutive, <- filter_keyed by exact Hkeyed.
    rewrite Hsnd. reflexivity.
  - apply Forall_rev. apply (Permutation_Forall Hperm).
    apply Forall_rev. exact Hkeyed.
Qed.

End SortedStable.

(** X5. Jobs posted on the same day keep, in the listing, the order in which
    they were given: for jobs whose posted dates are all strings, the jobs
    of any one day follow each other in the sorted list as in the input. *)
Theorem listing_keeps_order_within_a_day (jobs : list dict) :
  Forall (fun job => exists s, posted job = Py.Ok (Py.VStr s)) jobs ->
  exists ordered,
    sorted jobs posted true = Py.Ok ordered
    /\ forall day, filter (posted_on day) ordered = filter (posted_on day) jobs.
Proof.
  intros H.
  destruct (sorted_reverse_descending dict posted jobs H) as [ordered [Hs _]].
  exists ordered. split; [exact Hs |].
  intros day. exact (sorted_reverse_stable dict posted jobs ordered day H Hs).
Qed.

Lemma listing_keeps_order_within_a_day_witness :
  Forall (fun job => exists s, posted job = Py.Ok (Py.VStr s))
    [to acme_backend; to acme_backend_again; to acme_frontend]
  /\ exists ordered,
       sorted [to acme_backend; to acme_backend_again; to acme_frontend]
         posted true = Py.Ok ordered
       /\ forall day,
            filter (posted_on day) ordered
            = filter (posted_on day)
                [to acme_backend; to acme_backend_again; to acme_frontend].
Proof.
  assert (H : Forall (fun job => exists s, posted job = Py.Ok (Py.VStr s))
                [to acme_backend; to acme_backend_again; to acme_frontend]).
  { repeat constructor; eexists; reflexivity. }
  split; [exact H |].
  exact (listing_keeps_order_within_a_day _ H).
Defined.

(** *** What the export raises, and what it leaves in the files *)

(** X6. Two or more jobs that all have a posted date entry, one of them
    [None]: [export_to_markdown] raises [TypeError], whatever the order of
    the jobs, and leaves every file as it was. *)
Theorem export_to_markdown_undated_leaves_files (jobs : list dict)
    (output_file : Py.str) (fs : filesystem) :
  (2 <= List.length jobs)%nat ->
  Forall (fun job => Py.returned (posted job) = true) jobs ->
  Exists (fun job => posted job = Py.Ok Py.VNone) jobs ->
  export_to_markdown jobs output_file fs = (fs, Py.Raise Py.TypeError).
Proof.
  intros Hlen Hall Hex. unfold export_to_markdown.
  rewrite (render_undated_raises jobs Hlen Hall Hex). reflexivity.
Qed.

Lemma export_to_markdown_undated_leaves_files_witness :
  (2 <= List.length [to undated_offer; to acme_backend])%nat
  /\ Forall (fun job => Py.returned (posted job) = true)
       [to undated_offer; to acme_backend]
  /\ Exists (fun job => posted job = Py.Ok Py.VNone)
       [to undated_offer; to acme_backend]
  /\ export_to_markdown [to undated_offer; to acme_backend]
       default_output_file no_files
     = (no_files, Py.Raise Py.TypeError).
Proof.
  assert (H1 : (2 <= List.length [to undated_offer; to acme_backend])%nat)
    by (cbn [List.length]; lia).
  assert (H2 : Forall (fun job => Py.returned (posted job) = true)
                 [to undated_offer; to acme_backend])
    by (repeat constructor).
  assert (H3 : Exists (fun job => posted job = Py.Ok Py.VNone)
                 [to undated_offer; to acme_backend])
    by (apply Exists_cons_hd; reflexivity).
  split; [exact H1 |]. split; [exact H2 |]. split; [exact H3 |].
  exact (export_to_markdown_undated_leaves_files _ default_output_file
           no_files H1 H2 H3).
Defined.

Lemma section_raises (job : dict) (e : Py.exn) :
  section job = Py.Raise e -> e = Py.KeyError.
Proof.
  unfold section. intros H.
  repeat match type of H with
  | Py.bind (getitem ?d ?k) _ = _ =>
      let E := fresh "E" in
      destruct (getitem d k) eqn:E;
      [cbn [Py.bind] in H | cbn [Py.bind] in H; injection H as <-;
                            exact (getitem_raises _ _ _ E)]
  end.
  discriminate H.
Qed.

Lemma sections_raises (jobs : list dict) (text : Py.str) :
  Exists (fun job => Py.returned (section job) = false) jobs ->
  sections text jobs = Py.Raise Py.KeyError.
Proof.
  intros H. revert text. induction jobs as [| job jobs IH]; intros text.
  - inversion H.
  - cbn [sections]. destruct (section job) as [t | e] eqn:E.
    + cbn [Py.bind]. apply IH.
      apply Exists_cons in H. destruct H as [H | H]; [| exact H].
      rewrite E in H. discriminate H.
    + cbn [Py.bind]. rewrite (section_raises job e E). reflexivity.
Qed.

Lemma compute_keys_KeyError (jobs : list dict) :
  Exists (fun job => Py.returned (posted job) = false) jobs ->
  compute_keys posted jobs = Py.Raise Py.KeyError.
Proof.
  induction jobs as [| job jobs IH]; intros H.
  - inversion H.
  - cbn [compute_keys]. destruct (posted job) as [v | e] eqn:E.
    + cbn [Py.bind]. rewrite IH; [reflexivity |].
      apply Exists_cons in H. destruct H as [H | H]; [| exact H].
      rewrite E in H. discriminate H.
    + cbn [Py.bind]. unfold posted in E.
      rewrite (getitem_raises _ _ e E). reflexivity.
Qed.

(** X7. A job that lacks one of the five keys of a section, among jobs none
    of which has the posted date [None]: [export_to_markdown] raises
    [KeyError] and leaves every file as it was; no partial listing is
    written. *)
Theorem export_to_markdown_missing_key (jobs : list dict)
    (output_file : Py.str) (fs : filesystem) :
  Forall (fun job => posted job <> Py.Ok Py.VNone) jobs ->
  Exists (fun job => Py.returned (section job) = false) jobs ->
  export_to_markdown jobs output_file fs = (fs, Py.Raise Py.KeyError).
Proof.
  intros Hdated Hlack.
  assert (Hr : render jobs = Py.Raise Py.KeyError).
  { unfold render.
    change (fun x : dict => getitem x (Py.lit "posted_date")) with posted.
    destruct (Exists_dec (fun job => Py.returned (posted job) = false) jobs)
      as [Hex | Hall].
    { intros job. destruct (Py.returned (posted job)); [right | left];
        [discriminate | reflexivity]. }
    - unfold sorted. rewrite (compute_keys_KeyError jobs Hex). reflexivity.
    - assert (Hstr : Forall (fun job => exists s, posted job = Py.Ok (Py.VStr s)) jobs).
      { apply Forall_forall. intros job Hjob.
        pose proof (proj1 (Forall_forall _ _) Hdated job Hjob) as Hd.
        cbv beta in Hd.
        destruct (posted job) as [[| s] | e] eqn:E.
        - elim Hd. reflexivity.
        - exists s. reflexivity.
        - elim Hall. apply Exists_exists. exists job.
          split; [exact Hjob | rewrite E; reflexivity]. }
      destruct (sorted_reverse_descending dict posted jobs Hstr)
        as [ordered [Hs [Hperm _]]].
      rewrite Hs. cbn [Py.bind]. apply sections_raises.
      apply Exists_exists. apply Exists_exists in Hlack.
      destruct Hlack as [job [Hjob Hsec]]. exists job.
      split; [exact (Permutation_in job Hperm Hjob) | exact Hsec]. }
  unfold export_to_markdown. rewrite Hr. reflexivity.
Qed.

Lemma export_to_markdown_missing_key_witness :
  Forall (fun job => posted job <> Py.Ok Py.VNone)
    [to acme_backend; [(Py.lit "posted_date", Py.VStr (Py.lit "2025-05-03"))]]
  /\ Exists (fun job => Py.returned (section job) = false)
       [to acme_backend; [(Py.lit "posted_date", Py.VStr (Py.lit "2025-05-03"))]]
  /\ export_to_markdown
       [to acme_backend; [(Py.lit "posted_date", Py.VStr (Py.lit "2025-05-03"))]]
       default_output_file no_files
     = (no_files, Py.Raise Py.KeyError).
Proof.
  assert (H1 : Forall (fun job => posted job <> Py.Ok Py.VNone)
                 [to acme_backend;
                  [(Py.lit "posted_date", Py.VStr (Py.lit "2025-05-03"))]])
    by (repeat constructor; discriminate).
  assert (H2 : Exists (fun job => Py.returned (section job) = false)
                 [to acme_backend;
                  [(Py.lit "posted_date", Py.VStr (Py.lit "2025-05-03"))]])
    by (apply Exists_cons_tl, Exists_cons_hd; reflexivity).
  split; [exact H1 |]. split; [exact H2 |].
  exact (export_to_markdown_missing_key _ default_output_file no_files H1 H2).
Defined.

Lemma store_same (fs : filesystem) (f : file) (data : Py.bytes) :
  contents (store fs f data) f = Some data.
Proof. unfold store, contents. rewrite str_eqb_refl. reflexivity. Qed.






(** X9. When the text builds and holds a lone surrogate, and the name opens
    a file, [export_to_markdown] raises [UnicodeEncodeError] after the file
    was opened for writing: the file is left empty, the listing it held
    before is lost. When the name does not open, the error of [open] is
    raised instead and no file changes. *)
Theorem export_to_markdown_surrogate_empties_file (jobs : list dict)
    (output_file : Py.str) (fs : filesystem) (text : Py.str) :
  render jobs = Py.Ok text ->
  ~ Py.encodable text ->
  (forall f, open_for_writing fs output_file = Py.Ok f ->
     export_to_markdown jobs output_file fs
     = (store fs f [], Py.Raise Py.UnicodeEncodeError)
     /\ contents (fst (export_to_markdown jobs output_file fs)) f = Some [])
  /\ (forall e, open_for_writing fs output_file = Py.Raise e ->
        export_to_markdown jobs output_file fs = (fs, Py.Raise e)).
Proof.
  intros Hr Hn. split.
  - intros f Ho.
    assert (E : export_to_markdown jobs output_file fs
                = (store fs f [], Py.Raise Py.UnicodeEncodeError)).
    { unfold export_to_markdown, write_text. rewrite Hr, Ho.
      destruct (Py.encode_utf8 text) as [data | e] eqn:Hd.
      - elim Hn. exact (encode_utf8_returns text data Hd).
      - rewrite (encode_utf8_raises text e Hd). reflexivity. }
    rewrite E. split; [reflexivity | apply store_same].
  - intros e Ho. unfold export_to_markdown, write_text. rewrite Hr, Ho.
    reflexivity.
Qed.

Lemma export_to_markdown_surrogate_empties_file_witness :
  render [to half_emoji_offer]
  = Py.Ok (header 1 ++ offer_section half_emoji_offer)
  /\ ~ Py.encodable (header 1 ++ offer_section half_emoji_offer)
  /\ contents (fst (export_to_markdown [to half_emoji_offer]
                      default_output_file
                      (store no_files default_output_file [35])))
       default_output_file = Some []
  /\ export_to_markdown [to half_emoji_offer] []
       (store no_files default_output_file [35])
     = (store no_files default_output_file [35], Py.Raise Py.OSError).
Proof.
  assert (Hr : render [to half_emoji_offer]
               = Py.Ok (header 1 ++ offer_section half_emoji_offer))
    by (vm_compute; reflexivity).
  assert (Hn : ~ Py.encodable (header 1 ++ offer_section half_emoji_offer)).
  { intros H. apply encode_utf8_encodable in H. destruct H as [b Hb].
    vm_compute in Hb. discriminate Hb. }
  split; [exact Hr |]. split; [exact Hn |].
  split.
  - exact (proj2 (proj1 (export_to_markdown_surrogate_empties_file
                    [to half_emoji_offer] default_output_file
                    (store no_files default_output_file [35]) _ Hr Hn)
                  default_output_file eq_refl)).
  - exact (proj2 (export_to_markdown_surrogate_empties_file
                    [to half_emoji_offer] []
                    (store no_files default_output_file [35]) _ Hr Hn)
                  Py.OSError eq_refl).
Defined.

(** ** The scraper *)

Import Scraper.

(** *** Substrings *)

Lemma startswith_spec (s p : Py.str) :
  startswith s p = true <-> exists r, s = p ++ r.
Proof.
  revert s. induction p as [| x p IH]; intros s.
  - destruct s; cbn [startswith]; (split; [intros _; eexists; reflexivity | reflexivity]).
  - destruct s as [| y s]; cbn [startswith].
    + split; [discriminate | intros [r H]; discriminate H].
    + destruct (Z.eqb_spec x y) as [-> | N].
      * rewrite IH. split; intros [r H]; exists r.
        -- rewrite H. reflexivity.
        -- injection H as H. exact H.
      * split; [discriminate |]. intros [r H]. injection H as H _.
        elim N. symmetry. exact H.
Qed.

Lemma contains_occurs (k text : Py.str) :
  contains k text = true <-> occurs k text.
Proof.
  unfold occurs. induction text as [| c text IH].
  - cbn [contains]. destruct (startswith [] k) eqn:E.
    + apply startswith_spec in E. destruct E as [r E].
      split; [| reflexivity]. intros _. exists [], r. exact E.
    + split; [discriminate |]. intros [a [b H]].
      destruct a; [| discriminate H]. cbn [app] in H.
      assert (E' : startswith [] k = true)
        by (apply startswith_spec; exists b; exact H).
      rewrite E' in E. discriminate E.
  - cbn [contains]. destruct (startswith (c :: text) k) eqn:E.
    + apply startswith_spec in E. destruct E as [r E].
      split; [| reflexivity]. intros _. exists [], r. exact E.
    + rewrite IH. split.
      * intros [a [b H]]. exists (c :: a), b. rewrite H. reflexivity.
      * intros [a [b H]]. destruct a as [| c' a].
        -- cbn [app] in H.
           assert (E' : startswith (c :: text) k = true)
             by (apply startswith_spec; exists b; exact H).
           rewrite E' in E. discriminate E.
        -- injection H as _ H. exists a, b. exact H.
Qed.

Lemma occurs_trans (a b text : Py.str) :
  occurs a b -> occurs b text -> occurs a text.
Proof.
  intros [a1 [a2 ->]] [b1 [b2 ->]].
  exists (b1 ++ a1), (a2 ++ b2). rewrite <- !app_assoc. reflexivity.
Qed.

Lemma contains_false (k text : Py.str) :
  contains k text = false <-> ~ occurs k text.
Proof.
  rewrite <- contains_occurs. destruct (contains k text); split; intros H.
  - discriminate H.
  - elim H. reflexivity.
  - discriminate.
  - reflexivity.
Qed.

(** *** [_format_keywords] *)

Lemma replace_char_app (s t : Py.str) (old : Z) (new : Py.str) :
  replace_char (s ++ t) old new = replace_char s old new ++ replace_char t old new.
Proof.
  induction s as [| c s IH]; cbn [app replace_char].
  - reflexivity.
  - rewrite IH. destruct (c =? old); [rewrite app_assoc |]; reflexivity.
Qed.

Lemma format_keywords_no_space (keywords : Py.str) :
  Forall (fun c => c <> 32) (_format_keywords keywords).
Proof.
  unfold _format_keywords.
  induction keywords as [| c s IH]; cbn [replace_char].
  - constructor.
  - destruct (Z.eqb_spec c 32) as [-> | N].
    + repeat (constructor; [discriminate |]). exact IH.
    + constructor; assumption.
Qed.

(** X10. [_format_keywords] leaves no space in the keywords: every space
    becomes the three characters [%20] and every other character stays, so
    that keywords without a space come back unchanged, reserved characters
    of an address such as [&] included; the result of a concatenation is the
    concatenation of the results, and it is longer than the keywords by two
    characters for each space. *)
Theorem format_keywords_escapes_spaces_only (keywords : Py.str) :
  Forall (fun c => c <> 32) (_format_keywords keywords)
  /\ (Forall (fun c => c <> 32) keywords -> _format_keywords keywords = keywords)
  /\ (forall more,
        _format_keywords (keywords ++ more)
        = _format_keywords keywords ++ _format_keywords more)
  /\ (forall before after,
        _format_keywords (before ++ 32 :: after)
        = _format_keywords before ++ Py.lit "%20" ++ _format_keywords after)
  /\ List.length (_format_keywords keywords)
     = (List.length keywords + 2 * count_occ Z.eq_dec keywords 32%Z)%nat.
Proof.
  split; [exact (format_keywords_no_space keywords) |].
  unfold _format_keywords.
  split; [| split; [| split]].
  - induction 1 as [| c s Hc _ IH]; cbn [replace_char].
    + reflexivity.
    + destruct (Z.eqb_spec c 32) as [E | _]; [contradiction |].
      rewrite IH. reflexivity.
  - intros more. apply replace_char_app.
  - intros before after. rewrite replace_char_app. reflexivity.
  - induction keywords as [| c s IH]; cbn [replace_char count_occ List.length].
    + reflexivity.
    + destruct (Z.eqb_spec c 32) as [-> | N].
      * destruct (Z.eq_dec 32 32) as [_ | N]; [| elim N; reflexivity].
        rewrite length_app, IH. cbn [Py.lit List.length]. cbn. lia.
      * destruct (Z.eq_dec c 32) as [E | _]; [contradiction |].
        cbn [List.length]. rewrite IH. lia.
Qed.

(** *** [_filter_cards] *)

Lemma existsb_contains (text : Py.str) (l : list Py.str) :
  existsb (fun keyword => contains keyword text) l = true
  <-> exists k, In k l /\ occurs k text.
Proof.
  rewrite existsb_exists. split; intros [k [Hk H]]; exists k;
    (split; [exact Hk | apply contains_occurs; exact H]).
Qed.

Lemma existsb_contains_false (text : Py.str) (l : list Py.str) :
  existsb (fun keyword => contains keyword text) l = false
  <-> forall k, In k l -> ~ occurs k text.
Proof.
  rewrite <- not_true_iff_false, existsb_contains. split.
  - intros H k Hk Ho. apply H. exists k. split; assumption.
  - intros H [k [Hk Ho]]. exact (H k Hk Ho).
Qed.

Lemma dev_keywords_split (k : Py.str) :
  In k dev_keywords <-> In k dev_keywords_needed \/ k = Py.lit "engineering".
Proof.
  unfold dev_keywords, dev_keywords_needed. cbn [map In].
  split.
  - intros H. repeat (destruct H as [H | H]; [auto 20 |]). destruct H.
  - intros [H | H].
    + repeat (destruct H as [H | H]; [auto 20 |]). destruct H.
    + auto 20.
Qed.

Lemma intern_in_internship : occurs (Py.lit "intern") (Py.lit "internship").
Proof. exists [], (Py.lit "ship"). reflexivity. Qed.

Lemma engineer_in_engineering :
  occurs (Py.lit "engineer") (Py.lit "engineering").
Proof. exists [], (Py.lit "ing"). reflexivity. Qed.

Section FilterFacts.

Variable lower : Py.str -> Py.str.

(** What a kept card shows in its title. *)
Lemma filter_cards_kept (c : card) :
  _filter_cards lower c = true ->
  exists t,
    title_element c = Some t
    /\ occurs (Py.lit "intern") (lower (strip (tag_text t)))
    /\ (forall k, In k excluded_keywords ->
          ~ occurs k (lower (strip (tag_text t))))
    /\ (exists k, In k dev_keywords_needed
                  /\ occurs k (lower (strip (tag_text t)))).
Proof.
  unfold _filter_cards, title_element.
  destruct (find c (Py.lit "h3") (Some (Py.lit "base-search-card__title")))
    as [t |]; [| discriminate].
  cbv zeta. set (text := lower (strip (tag_text t))). intros H.
  exists t. split; [reflexivity |].
  destruct (contains (Py.lit "intern") text) eqn:Ei.
  - cbn [negb andb] in H.
    destruct (existsb (fun keyword => contains keyword text) excluded_keywords)
      eqn:Ex; [discriminate H |].
    split; [apply contains_occurs; exact Ei |].
    split; [apply existsb_contains_false; exact Ex |].
    apply existsb_contains in H. destruct H as [k [Hk Ho]].
    apply dev_keywords_split in Hk. destruct Hk as [Hk | ->].
    + exists k. split; assumption.
    + exists (Py.lit "engineer"). split.
      * unfold dev_keywords_needed. cbn [map In]. auto 20.
      * exact (occurs_trans _ _ _ engineer_in_engineering Ho).
  - cbn [negb andb] in H.
    destruct (contains (Py.lit "internship") text) eqn:Es.
    + exfalso. apply contains_occurs in Es. apply contains_false in Ei.
      exact (Ei (occurs_trans _ _ _ intern_in_internship Es)).
    + discriminate H.
Qed.

(** X11. [_filter_cards] keeps a card exactly when the card has a title
    element and the title, stripped and lowered, holds ["intern"] somewhere,
    holds none of the sixteen excluded keywords anywhere, and holds one of
    the development keywords somewhere. Keywords are matched as substrings,
    inside longer words too; the test for ["internship"] and the keyword
    ["engineering"] change nothing, ["intern"] and ["engineer"] covering
    them. *)
Theorem filter_cards_keeps_exactly (c : card) :
  _filter_cards lower c = true
  <-> exists t,
        title_element c = Some t
        /\ occurs (Py.lit "intern") (lower (strip (tag_text t)))
        /\ (forall k, In k excluded_keywords ->
              ~ occurs k (lower (strip (tag_text t))))
        /\ (exists k, In k dev_keywords_needed
                      /\ occurs k (lower (strip (tag_text t)))).
Proof.
  split; [exact (filter_cards_kept c) |].
  intros [t [Ht [Hi [Hex [k [Hk Ho]]]]]].
  unfold title_element in Ht. unfold _filter_cards. rewrite Ht. cbv zeta.
  apply contains_occurs in Hi. rewrite Hi. cbn [negb andb].
  apply existsb_contains_false in Hex. rewrite Hex.
  apply existsb_contains. exists k.
  split; [apply dev_keywords_split; left; exact Hk | exact Ho].
Qed.

End FilterFacts.

Example filter_cards_samples :
  _filter_cards ascii_lower dated_card = true
  /\ _filter_cards ascii_lower undated_card = true
  /\ _filter_cards ascii_lower chrome_card = false
  /\ _filter_cards ascii_lower sales_card = false
  /\ _filter_cards ascii_lower no_company_card = true
  /\ _filter_cards ascii_lower [] = false.
Proof. repeat split; vm_compute; reflexivity. Qed.

(** *** [str.strip] *)

Lemma lstrip_head (s r : Py.str) (c : Z) :
  lstrip s = c :: r -> is_space c = false.
Proof.
  induction s as [| x s IH]; cbn [lstrip]; intros H.
  - discriminate H.
  - destruct (is_space x) eqn:E; [exact (IH H) |].
    injection H as <- _. exact E.
Qed.

Lemma lstrip_suffix (s : Py.str) :
  exists spaces, Forall (fun c => is_space c = true) spaces
                 /\ s = spaces ++ lstrip s.
Proof.
  induction s as [| x s [sp [Hsp IH]]]; cbn [lstrip].
  - exists []. split; [constructor | reflexivity].
  - destruct (is_space x) eqn:E.
    + exists (x :: sp). split; [constructor; assumption |].
      cbn [app]. rewrite <- IH. reflexivity.
    + exists []. split; [constructor | reflexivity].
Qed.

Lemma rstrip_prefix (s : Py.str) :
  exists spaces, Forall (fun c => is_space c = true) spaces
                 /\ s = rstrip s ++ spaces.
Proof.
  unfold rstrip. destruct (lstrip_suffix (rev s)) as [sp [Hsp H]].
  exists (rev sp). split; [apply Forall_rev; exact Hsp |].
  rewrite <- rev_app_distr, <- H, rev_involutive. reflexivity.
Qed.

(** [s.strip()] is [s] without the white space at its two ends. *)
Lemma strip_stripped (s : Py.str) :
  stripped (strip s)
  /\ exists before after,
       Forall (fun c => is_space c = true) before
       /\ Forall (fun c => is_space c = true) after
       /\ s = before ++ strip s ++ after.
Proof.
  split.
  - unfold strip, stripped.
    destruct (rstrip (lstrip s)) as [| c r] eqn:E; [exact I |].
    split.
    + destruct (rstrip_prefix (lstrip s)) as [sp [_ H]].
      rewrite E in H. cbn [app] in H. exact (lstrip_head s _ c H).
    + unfold rstrip in E.
      destruct (lstrip (rev (lstrip s))) as [| x q] eqn:Eq.
      * discriminate E.
      * rewrite <- E. cbn [rev]. rewrite last_last.
        exact (lstrip_head _ _ _ Eq).
  - destruct (lstrip_suffix s) as [before [Hb H1]].
    destruct (rstrip_prefix (lstrip s)) as [after [Ha H2]].
    exists before, after. split; [exact Hb |]. split; [exact Ha |].
    unfold strip. rewrite <- H2. exact H1.
Qed.

(** *** [_parse_job_card] *)

Lemma get_attr_None (attrs : list (Py.str * Py.str)) (attr : Py.str) :
  get_attr attrs attr = Py.VNone <-> ~ In attr (map fst attrs).
Proof.
  induction attrs as [| [k v] attrs IH]; cbn [get_attr map fst In].
  - split; [intros _ [] | reflexivity].
  - destruct (Py.str_eqb k attr) eqn:E.
    + apply str_eqb_eq in E. split; [discriminate |].
      intros H. elim H. left. exact E.
    + apply str_eqb_neq in E. rewrite IH. tauto.
Qed.

Lemma parse_job_card_returns (c : card) (t n l : tag) :
  title_element c = Some t -> company_element c = Some n ->
  location_element c = Some l ->
  _parse_job_card c
  = Returned {| title := Py.VStr (strip (tag_text t));
                company_name := Py.VStr (strip (tag_text n));
                location := Py.VStr (strip (tag_text l));
                posted_date :=
                  match time_element c with
                  | Some e => get e (Py.lit "datetime")
                  | None => Py.VNone
                  end;
                description := Py.VNone;
                url :=
                  match link_element c with
                  | Some a => get a (Py.lit "href")
                  | None => Py.VNone
                  end |}.
Proof.
  unfold title_element, company_element, location_element, time_element,
    link_element, _parse_job_card.
  intros -> -> ->. reflexivity.
Qed.

Lemma parse_job_card_raises (c : card) :
  title_element c = None \/ company_element c = None
  \/ location_element c = None ->
  _parse_job_card c = Raised AttributeError.
Proof.
  unfold title_element, company_element, location_element, _parse_job_card.
  destruct (find c (Py.lit "h3") _); [| reflexivity].
  destruct (find c (Py.lit "h4") _); [| reflexivity].
  destruct (find c (Py.lit "span") _); [| reflexivity].
  intros [H | [H | H]]; discriminate H.
Qed.

Lemma parse_job_card_cases (c : card) :
  (exists t n l, title_element c = Some t /\ company_element c = Some n
                 /\ location_element c = Some l)
  \/ (title_element c = None \/ company_element c = None
      \/ location_element c = None).
Proof.
  destruct (title_element c) as [t |]; [| right; left; reflexivity].
  destruct (company_element c) as [n |]; [| right; right; left; reflexivity].
  destruct (location_element c) as [l |]; [| right; right; right; reflexivity].
  left. exists t, n, l. repeat split.
Qed.

(** X12. [_parse_job_card] returns an offer exactly when the card has its
    title, company and location elements, and raises [AttributeError], and
    nothing else, when one is missing. In the offer it returns, title,
    company name and location are strings, never [None], with no white space
    at either end; the description is [None]; the posted date is [None]
    exactly when the card has no [time] element or that element no
    [datetime] attribute, and the link is [None] exactly when the card has
    no link element or that element no [href] attribute. *)
Theorem parse_job_card_outcome (c : card) :
  ((exists job, _parse_job_card c = Returned job)
   <-> (exists t n l, title_element c = Some t /\ company_element c = Some n
                      /\ location_element c = Some l))
  /\ (forall e, _parse_job_card c = Raised e -> e = AttributeError)
  /\ (forall job, _parse_job_card c = Returned job ->
        (exists t n l,
           title job = Py.VStr t /\ company_name job = Py.VStr n
           /\ location job = Py.VStr l
           /\ stripped t /\ stripped n /\ stripped l)
        /\ description job = Py.VNone
        /\ (posted_date job = Py.VNone
            <-> time_element c = None
                \/ exists e, time_element c = Some e
                             /\ ~ In (Py.lit "datetime") (map fst (tag_attrs e)))
        /\ (url job = Py.VNone
            <-> link_element c = None
                \/ exists a, link_element c = Some a
                             /\ ~ In (Py.lit "href") (map fst (tag_attrs a)))).
Proof.
  destruct (parse_job_card_cases c) as [[t [n [l [Ht [Hn Hl]]]]] | Hmiss].
  - pose proof (parse_job_card_returns c t n l Ht Hn Hl) as Hp.
    split; [| split].
    + split; [intros _; exists t, n, l; repeat split; assumption |].
      intros _. eexists. exact Hp.
    + intros e He. rewrite Hp in He. discriminate He.
    + intros job Hjob. rewrite Hp in Hjob. injection Hjob as <-.
      cbn [title company_name location description posted_date url].
      split.
      { exists (strip (tag_text t)), (strip (tag_text n)), (strip (tag_text l)).
        repeat (split; [reflexivity |]).
        split; [apply strip_stripped |]. split; apply strip_stripped. }
      split; [reflexivity |].
      split.
      * destruct (time_element c) as [e |].
        -- unfold get. rewrite get_attr_None. split.
           ++ intros H. right. exists e. split; [reflexivity | exact H].
           ++ intros [H | [e' [[= <-] H]]]; [discriminate H | exact H].
        -- split; [intros _; left; reflexivity | reflexivity].
      * destruct (link_element c) as [a |].
        -- unfold get. rewrite get_attr_None. split.
           ++ intros H. right. exists a. split; [reflexivity | exact H].
           ++ intros [H | [a' [[= <-] H]]]; [discriminate H | exact H].
        -- split; [intros _; left; reflexivity | reflexivity].
  - pose proof (parse_job_card_raises c Hmiss) as Hp.
    split; [| split].
    + split.
      * intros [job Hjob]. rewrite Hp in Hjob. discriminate Hjob.
      * intros [t [n [l [Ht [Hn Hl]]]]].
        destruct Hmiss as [H | [H | H]]; congruence.
    + intros e He. rewrite Hp in He. injection He as <-. reflexivity.
    + intros job Hjob. rewrite Hp in Hjob. discriminate Hjob.
Qed.

Example parse_dated_card :
  _parse_job_card dated_card
  = Returned {| title := Py.VStr (Py.lit "Software Engineer Intern");
                company_name := Py.VStr (Py.lit "Acme");
                location := Py.VStr (Py.lit "Paris");
                posted_date := Py.VStr (Py.lit "2025-05-01");
                description := Py.VNone;
                url := Py.VStr (Py.lit "https://example.com/job") |}.
Proof. vm_compute. reflexivity. Qed.

(** *** From a card to a fingerprint and to the listing *)

(** X13. The fingerprint of an offer [_parse_job_card] returns is the digest
    of the stripped company, title and location texts of the card, joined:
    no field of such an offer is absent, so the text ["None"] never enters
    and the digest is the one the reading "absent as empty string" gives;
    link and posted date do not enter, nor does white space around the three
    texts. *)
Theorem parsed_offer_fingerprint (c : card) (job : JobOffer) :
  _parse_job_card c = Returned job ->
  get_hash job = get_hash_absent_as_empty job
  /\ (exists t n l,
        title_element c = Some t /\ company_element c = Some n
        /\ location_element c = Some l
        /\ content job
           = Py.encode_utf8 (strip (tag_text n) ++ strip (tag_text t)
                             ++ strip (tag_text l)))
  /\ (forall c' job', _parse_job_card c' = Returned job' ->
        option_map (fun e => strip (tag_text e)) (title_element c')
        = option_map (fun e => strip (tag_text e)) (title_element c) ->
        option_map (fun e => strip (tag_text e)) (company_element c')
        = option_map (fun e => strip (tag_text e)) (company_element c) ->
        option_map (fun e => strip (tag_text e)) (location_element c')
        = option_map (fun e => strip (tag_text e)) (location_element c) ->
        get_hash job' = get_hash job).
Proof.
  intros H.
  destruct (parse_job_card_cases c) as [[t [n [l [Ht [Hn Hl]]]]] | Hmiss].
  2: { rewrite (parse_job_card_raises c Hmiss) in H. discriminate H. }
  rewrite (parse_job_card_returns c t n l Ht Hn Hl) in H. injection H as <-.
  split; [reflexivity |].
  split; [exists t, n, l; repeat (split; [assumption |]); reflexivity |].
  intros c' job' H'.
  destruct (parse_job_card_cases c') as [[t' [n' [l' [Ht' [Hn' Hl']]]]] | Hmiss'].
  2: { rewrite (parse_job_card_raises c' Hmiss') in H'. discriminate H'. }
  rewrite (parse_job_card_returns c' t' n' l' Ht' Hn' Hl') in H'.
  injection H' as <-.
  rewrite Ht, Hn, Hl, Ht', Hn', Hl'. cbn [option_map].
  intros [= Et] [= En] [= El].
  unfold get_hash, content. cbn [title company_name location Py.format].
  rewrite Et, En, El. reflexivity.
Qed.

Lemma parsed_offer_fingerprint_witness :
  exists job,
    _parse_job_card dated_card = Returned job
    /\ get_hash job = get_hash_absent_as_empty job
    /\ get_hash job
       = get_hash (offer_of "Acme" "Software Engineer Intern" "Paris").
Proof.
  destruct (_parse_job_card dated_card) as [job | e] eqn:E;
    [| vm_compute in E; discriminate E].
  exists job. split; [reflexivity |].
  split; [exact (proj1 (parsed_offer_fingerprint dated_card job E)) |].
  vm_compute in E. injection E as <-. vm_compute. reflexivity.
Defined.

(** X14. Two cards that parse, one of them without [time] element: the
    listing of the two offers cannot be written. [export_to_markdown] on
    their mappings raises [TypeError], in either order, and leaves the files
    as they were. *)
Theorem scraped_undated_offer_breaks_export (c1 c2 : card) (job1 job2 : JobOffer)
    (output_file : Py.str) (fs : filesystem) :
  _parse_job_card c1 = Returned job1 ->
  _parse_job_card c2 = Returned job2 ->
  time_element c2 = None ->
  export_to_markdown [to job1; to job2] output_file fs
  = (fs, Py.Raise Py.TypeError)
  /\ export_to_markdown [to job2; to job1] output_file fs
     = (fs, Py.Raise Py.TypeError).
Proof.
  intros H1 H2 Htime.
  assert (Hd : posted_date job2 = Py.VNone).
  { destruct (parse_job_card_cases c2) as [[t [n [l [Ht [Hn Hl]]]]] | Hmiss].
    - rewrite (parse_job_card_returns c2 t n l Ht Hn Hl) in H2.
      injection H2 as <-. cbn [posted_date]. rewrite Htime. reflexivity.
    - rewrite (parse_job_card_raises c2 Hmiss) in H2. discriminate H2. }
  assert (Hp : posted (to job2) = Py.Ok Py.VNone)
    by (rewrite posted_to, Hd; reflexivity).
  unfold export_to_markdown.
  rewrite (render_undated_raises [to job1; to job2]),
    (render_undated_raises [to job2; to job1]).
  - split; reflexivity.
  - cbn [List.length]. lia.
  - repeat constructor.
  - apply Exists_cons_hd. exact Hp.
  - cbn [List.length]. lia.
  - repeat constructor.
  - apply Exists_cons_tl, Exists_cons_hd. exact Hp.
Qed.

Lemma scraped_undated_offer_breaks_export_witness :
  exists job1 job2,
    _parse_job_card dated_card = Returned job1
    /\ _parse_job_card undated_card = Returned job2
    /\ time_element undated_card = None
    /\ export_to_markdown [to job1; to job2] default_output_file no_files
       = (no_files, Py.Raise Py.TypeError).
Proof.
  destruct (_parse_job_card dated_card) as [job1 | e] eqn:E1;
    [| vm_compute in E1; discriminate E1].
  destruct (_parse_job_card undated_card) as [job2 | e] eqn:E2;
    [| vm_compute in E2; discriminate E2].
  exists job1, job2.
  split; [reflexivity |]. split; [reflexivity |].
  split; [reflexivity |].
  exact (proj1 (scraped_undated_offer_breaks_export dated_card undated_card
                  job1 job2 default_output_file no_files E1 E2 eq_refl)).
Defined.

(** *** [fetch_jobs] *)

Section FetchFacts.

Variable lower : Py.str -> Py.str.

Local Abbreviation kept := (_filter_cards lower).

Lemma unparsable_dec (c : card) : {unparsable c} + {exists job, parses_to c job}.
Proof.
  unfold parses_to. destruct (_parse_job_card c) as [job | e] eqn:E.
  - right. exists job. reflexivity.
  - left. destruct (parse_job_card_cases c) as [[t [n [l [Ht [Hn Hl]]]]] | H].
    + rewrite (parse_job_card_returns c t n l Ht Hn Hl) in E. discriminate E.
    + exact H.
Qed.

(** The loop on cards that all parse, once filtered. *)
Lemma collect_returns (cs : list card) (parsed : list JobOffer) :
  Forall2 parses_to (filter kept cs) parsed ->
  forall jobs n,
    collect lower cs jobs n
    = Returned (jobs ++ parsed,
                (n + (List.length cs - List.length parsed))%nat).
Proof.
  revert parsed. induction cs as [| c cs IH]; intros parsed H jobs n.
  - inversion H. cbn [collect List.length]. rewrite app_nil_r, Nat.add_0_r.
    reflexivity.
  - cbn [filter] in H. cbn [collect].
    destruct (_filter_cards lower c) eqn:E; cbn [negb].
    + inversion H as [| c' job cs' parsed' Hc Hrest]; subst.
      unfold parses_to in Hc. rewrite Hc, (IH parsed' Hrest).
      rewrite <- app_assoc. cbn [app List.length]. reflexivity.
    + rewrite (IH parsed H). f_equal. f_equal. cbn [List.length].
      assert (Hle : (List.length parsed <= List.length cs)%nat).
      { rewrite <- (Forall2_length H). apply filter_length_le. }
      lia.
Qed.

(** The loop on cards of which a kept one does not parse. *)
Lemma collect_raises (cs : list card) :
  Exists unparsable (filter kept cs) ->
  forall jobs n, collect lower cs jobs n = Raised (ParsingError AttributeError).
Proof.
  induction cs as [| c cs IH]; intros H jobs n.
  - inversion H.
  - cbn [filter] in H. cbn [collect].
    destruct (_filter_cards lower c) eqn:E; cbn [negb].
    + destruct (unparsable_dec c) as [Hc | [job Hc]].
      * rewrite (parse_job_card_raises c Hc). reflexivity.
      * unfold parses_to in Hc. rewrite Hc. apply IH.
        apply Exists_cons in H. destruct H as [H | H]; [| exact H].
        rewrite (parse_job_card_raises c H) in Hc. discriminate Hc.
    + apply IH. exact H.
Qed.

Lemma kept_cards_cases (cs : list card) :
  Exists unparsable (filter kept cs)
  \/ exists parsed, Forall2 parses_to (filter kept cs) parsed.
Proof.
  induction (filter kept cs) as [| c l IH].
  - right. exists []. constructor.
  - destruct (unparsable_dec c) as [Hc | [job Hc]].
    + left. apply Exists_cons_hd. exact Hc.
    + destruct IH as [H | [parsed H]].
      * left. apply Exists_cons_tl. exact H.
      * right. exists (job :: parsed). constructor; assumption.
Qed.

Lemma parses_to_unique (l : list card) (p1 p2 : list JobOffer) :
  Forall2 parses_to l p1 -> Forall2 parses_to l p2 -> p1 = p2.
Proof.
  intros H1. revert p2. induction H1 as [| c j l p Hc _ IH]; intros p2 H2.
  - inversion H2. reflexivity.
  - inversion H2 as [| c' j' l' p' Hc' Hrest]; subst.
    unfold parses_to in Hc, Hc'. rewrite Hc in Hc'. injection Hc' as <-.
    rewrite (IH p' Hrest). reflexivity.
Qed.

(** X15. The outcomes of [fetch_jobs]. It raises [TypeError] when the
    location id or the keywords are not strings. Otherwise it requests
    [host/?keywords=<keywords, spaces escaped>&geoId=<id>]; on a status
    other than 200 it raises [ScrapingError], whatever the body; on status
    200 it raises [ParsingError], caused by an [AttributeError], when a card
    that [_filter_cards] keeps lacks an element [_parse_job_card] needs, and
    otherwise returns the offers of the kept cards, in the order of the
    page, and only those. *)
Theorem fetch_jobs_outcomes (host : Py.str) (session : Py.str -> response)
    (geo_id keywords : Py.value) :
  (geo_id = Py.VNone \/ keywords = Py.VNone ->
   fetch_jobs lower host session geo_id keywords = Raised TypeError)
  /\ (forall geo words,
        geo_id = Py.VStr geo -> keywords = Py.VStr words ->
        forall answer,
          answer = session (host ++ Py.lit "/?keywords="
                            ++ _format_keywords words
                            ++ Py.lit "&geoId=" ++ geo) ->
          (status answer <> 200 ->
           fetch_jobs lower host session geo_id keywords = Raised ScrapingError)
          /\ (status answer = 200 ->
              (Exists unparsable (filter kept (cards answer)) ->
               fetch_jobs lower host session geo_id keywords
               = Raised (ParsingError AttributeError))
              /\ (forall jobs,
                    fetch_jobs lower host session geo_id keywords = Returned jobs
                    <-> Forall2 parses_to (filter kept (cards answer)) jobs))).
Proof.
  split.
  { intros [-> | ->]; [reflexivity |]. destruct geo_id; reflexivity. }
  intros geo words -> -> answer ->.
  unfold fetch_jobs, request_url.
  set (answer := session _).
  split.
  - intros H. apply Z.eqb_neq in H. rewrite H. reflexivity.
  - intros H. rewrite H. cbn [Z.eqb Pos.eqb negb].
    split.
    + intros Hex. rewrite (collect_raises (cards answer) Hex). reflexivity.
    + intros jobs. split.
      * intros Hret.
        destruct (kept_cards_cases (cards answer)) as [Hex | [parsed Hp]].
        -- rewrite (collect_raises (cards answer) Hex) in Hret.
           discriminate Hret.
        -- rewrite (collect_returns (cards answer) parsed Hp) in Hret.
           cbn [bind fst app] in Hret. injection Hret as <-. exact Hp.
      * intros Hp. rewrite (collect_returns (cards answer) jobs Hp).
        reflexivity.
Qed.

End FetchFacts.

Section FetchMore.

Variable lower : Py.str -> Py.str.

Local Abbreviation kept := (_filter_cards lower).

(** X16. The numbers [fetch_jobs] logs add up: when the loop over the cards
    ends, the jobs found and the cards filtered out are as many as the cards
    of the page; the jobs found are as many as the cards kept, the cards
    filtered out as many as the cards not kept. *)
Theorem collect_counts (cs : list card) (jobs : list JobOffer) (filtered : nat) :
  collect lower cs [] 0 = Returned (jobs, filtered) ->
  (List.length jobs + filtered = List.length cs)%nat
  /\ List.length jobs = List.length (filter kept cs)
  /\ filtered = List.length (filter (fun c => negb (kept c)) cs).
Proof.
  intros H.
  destruct (kept_cards_cases lower cs) as [Hex | [parsed Hp]].
  - rewrite (collect_raises lower cs Hex) in H. discriminate H.
  - rewrite (collect_returns lower cs parsed Hp) in H.
    cbn [app] in H. injection H as <- <-.
    pose proof (Forall2_length Hp) as Hlen.
    pose proof (filter_length kept cs) as Hsum.
    split; [| split]; lia.
Qed.

(** X17. A card that [_filter_cards] keeps has its title element, so it
    fails to parse exactly when it lacks the company or the location
    element; and when it parses, the title of the offer, lowered, holds
    ["intern"] and a development keyword and none of the excluded
    keywords. *)
Theorem kept_card_parses (c : card) :
  _filter_cards lower c = true ->
  (unparsable c <-> company_element c = None \/ location_element c = None)
  /\ (forall job, _parse_job_card c = Returned job ->
        exists t,
          title job = Py.VStr t
          /\ occurs (Py.lit "intern") (lower t)
          /\ (forall k, In k excluded_keywords -> ~ occurs k (lower t))
          /\ (exists k, In k dev_keywords_needed /\ occurs k (lower t))).
Proof.
  intros H. destruct (filter_cards_kept lower c H) as [t [Ht Hconds]].
  split.
  - unfold unparsable. rewrite Ht. split.
    + intros [E | E]; [discriminate E | exact E].
    + intros E. right. exact E.
  - intros job Hjob.
    destruct (parse_job_card_cases c) as [[t' [n [l [Ht' [Hn Hl]]]]] | Hmiss].
    + rewrite (parse_job_card_returns c t' n l Ht' Hn Hl) in Hjob.
      injection Hjob as <-. rewrite Ht in Ht'. injection Ht' as <-.
      exists (strip (tag_text t)). split; [reflexivity | exact Hconds].
    + rewrite (parse_job_card_raises c Hmiss) in Hjob. discriminate Hjob.
Qed.

End FetchMore.

Lemma collect_counts_witness :
  collect ascii_lower [dated_card; sales_card; undated_card] [] 0
  = Returned ([offer_of_card_dated; offer_of_card_undated], 1%nat)
  /\ (List.length [offer_of_card_dated; offer_of_card_undated] + 1
      = List.length [dated_card; sales_card; undated_card])%nat.
Proof.
  assert (H : collect ascii_lower [dated_card; sales_card; undated_card] [] 0
              = Returned ([offer_of_card_dated; offer_of_card_undated], 1%nat))
    by (vm_compute; reflexivity).
  split; [exact H |].
  exact (proj1 (collect_counts ascii_lower
                  [dated_card; sales_card; undated_card] _ _ H)).
Defined.

Lemma kept_card_parses_witness :
  _filter_cards ascii_lower no_company_card = true
  /\ (unparsable no_company_card
      <-> company_element no_company_card = None
          \/ location_element no_company_card = None)
  /\ _parse_job_card no_company_card = Raised AttributeError.
Proof.
  assert (H : _filter_cards ascii_lower no_company_card = true)
    by (vm_compute; reflexivity).
  split; [exact H |].
  split; [exact (proj1 (kept_card_parses ascii_lower no_company_card H)) |].
  vm_compute. reflexivity.
Defined.

(** X18. The address [fetch_jobs] requests holds no space when the host and
    the location id hold none, whatever the keywords. *)
Theorem request_url_no_space (host geo_id keywords : Py.str) :
  Forall (fun c => c <> 32) host ->
  Forall (fun c => c <> 32) geo_id ->
  Forall (fun c => c <> 32) (request_url host geo_id keywords).
Proof.
  intros Hh Hg. unfold request_url.
  apply Forall_app. split; [exact Hh |].
  apply Forall_app. split; [repeat constructor; discriminate |].
  apply Forall_app. split; [apply format_keywords_no_space |].
  apply Forall_app. split; [repeat constructor; discriminate | exact Hg].
Qed.

Lemma request_url_no_space_witness :
  Forall (fun c => c <> 32) (Py.lit "https://example.com/jobs")
  /\ Forall (fun c => c <> 32) (Py.lit "105015875")
  /\ Forall (fun c => c <> 32)
       (request_url (Py.lit "https://example.com/jobs") (Py.lit "105015875")
          (Py.lit "Summer 2025"))
  /\ request_url (Py.lit "https://example.com/jobs") (Py.lit "105015875")
       (Py.lit "Summer 2025")
     = Py.lit "https://example.com/jobs/?keywords=Summer%202025&geoId=105015875".
Proof.
  assert (H1 : Forall (fun c => c <> 32) (Py.lit "https://example.com/jobs"))
    by (repeat constructor; discriminate).
  assert (H2 : Forall (fun c => c <> 32) (Py.lit "105015875"))
    by (repeat constructor; discriminate).
  split; [exact H1 |]. split; [exact H2 |].
  split; [exact (request_url_no_space _ _ (Py.lit "Summer 2025") H1 H2) |].
  reflexivity.
Defined.

(** ** The ingestion loop of [main] *)

Section IngestFacts.

Variable Fingerprint : Type.
Variable fp_eq_dec : forall a b : Fingerprint, {a = b} + {a <> b}.
Variable fingerprint : JobOffer -> Fingerprint.

Local Abbreviation add_jobs := (Repository.add_jobs fp_eq_dec fingerprint).
Local Abbreviation ingest := (Main.ingest fp_eq_dec fingerprint).
Local Abbreviation ingest_step := (Main.ingest_step fp_eq_dec fingerprint).
Local Abbreviation fresh := (fresh fp_eq_dec fingerprint).

Lemma fresh_app (seen : list Fingerprint) (l1 l2 : list JobOffer) :
  fresh seen (l1 ++ l2)
  = fresh seen l1 ++ fresh (seen ++ map fingerprint (fresh seen l1)) l2.
Proof.
  revert seen. induction l1 as [| r l1 IH]; intros seen.
  - cbn [app map]. rewrite app_nil_r. reflexivity.
  - cbn [app]. change (fresh seen (r :: l1 ++ l2))
      with (if in_dec fp_eq_dec (fingerprint r) seen then fresh seen (l1 ++ l2)
            else r :: fresh (seen ++ [fingerprint r]) (l1 ++ l2)).
    change (fresh seen (r :: l1))
      with (if in_dec fp_eq_dec (fingerprint r) seen then fresh seen l1
            else r :: fresh (seen ++ [fingerprint r]) l1).
    destruct (in_dec fp_eq_dec (fingerprint r) seen) as [Hin | Hout].
    + apply IH.
    + rewrite IH. cbn [app map]. rewrite <- app_assoc. reflexivity.
Qed.

(** Two calls in a row count and hold what one call on the joined batches
    counts and holds. *)
Lemma add_jobs_joined (l1 l2 : list JobOffer) (st : Repository.state Fingerprint) :
  snd (add_jobs l2 (snd (add_jobs l1 st))) = snd (add_jobs (l1 ++ l2) st)
  /\ (fst (fst (add_jobs l1 st)) + fst (fst (add_jobs l2 (snd (add_jobs l1 st))))
      = fst (fst (add_jobs (l1 ++ l2) st)))%nat.
Proof.
  rewrite !(add_jobs_fresh Fingerprint fp_eq_dec fingerprint). cbn [fst snd].
  rewrite (keys_app Fingerprint), (keys_entries Fingerprint fingerprint).
  rewrite fresh_app, map_app, length_app, app_assoc. split; reflexivity.
Qed.

Lemma ingest_loop (results : list (option (list JobOffer)))
    (st : Repository.state Fingerprint) (n : nat) :
  fold_left ingest_step results (n, st)
  = ((n + fst (fst (add_jobs (all_jobs_of results) st)))%nat,
     snd (add_jobs (all_jobs_of results) st)).
Proof.
  revert st n. induction results as [| jobs results IH]; intros st n.
  - cbn [fold_left all_jobs_of map List.concat].
    rewrite (add_jobs_fresh Fingerprint fp_eq_dec fingerprint).
    cbn [fst snd map List.length]. rewrite app_nil_r, Nat.add_0_r. reflexivity.
  - cbn [fold_left]. destruct jobs as [batch |].
    + cbn [Main.ingest_step fst snd]. rewrite IH.
      change (all_jobs_of (Some batch :: results))
        with (batch ++ all_jobs_of results).
      destruct (add_jobs_joined batch (all_jobs_of results) st) as [Hst Hn].
      rewrite Hst, <- Hn, Nat.add_assoc. reflexivity.
    + cbn [Main.ingest_step]. rewrite IH. reflexivity.
Qed.

(** X19. The loop of [main] over the gathered results, with the repository
    as the specification describes it: feeding the batches one by one, the
    [None] results skipped, leaves the repository as one [add_jobs] call on
    all the jobs joined would, and [total_new_jobs] is the number of jobs
    that call would count as new, which is the number of records the
    repository has gained; from the empty repository it is the number of
    jobs [get_all_jobs] returns. *)
Theorem ingest_counts_new_jobs (results : list (option (list JobOffer)))
    (repo : Repository.state Fingerprint) :
  ingest results repo
  = (fst (fst (add_jobs (all_jobs_of results) repo)),
     snd (add_jobs (all_jobs_of results) repo))
  /\ List.length (snd (ingest results repo))
     = (List.length repo + fst (ingest results repo))%nat
  /\ fst (ingest results Repository.empty)
     = List.length (Repository.get_all_jobs (snd (ingest results Repository.empty))).
Proof.
  assert (E : forall st, ingest results st
                         = (fst (fst (add_jobs (all_jobs_of results) st)),
                            snd (add_jobs (all_jobs_of results) st))).
  { intros st. unfold Main.ingest. rewrite ingest_loop. reflexivity. }
  split; [exact (E repo) |].
  rewrite !E. cbn [fst snd].
  rewrite !(add_jobs_fresh Fingerprint fp_eq_dec fingerprint). cbn [fst snd].
  unfold Repository.get_all_jobs.
  rewrite length_app, !length_map. cbn [Repository.empty app List.length].
  rewrite length_map. split; reflexivity.
Qed.

End IngestFacts.

Example ingest_scenario :
  Main.ingest outcome_eq_dec get_hash
    [Some [acme_backend]; None; Some [acme_backend_again; acme_frontend]]
    Repository.empty
  = (2%nat, after_second_batch).
Proof. vm_compute. reflexivity. Qed.

(** ** The export, from the jobs to the file *)










